(** * Onboarding server: progress tracking and authorization gate

    Shallow embedding of the file-backed Express server ([src/server.js],
    lines 1-280). The handlers of [src/api/index.js] are the same text; its
    file helpers differ in swallowing file-system errors, and here the file
    system does not fail.

    - User ids, array lengths and counters are integers: [Z].
    - A section id reaches the server as an integer literal in the request
      body. [bodyParser.json()] reads it as a JavaScript number, a double:
      integers of more than 53 significant bits are rounded, and beyond the
      range of doubles the number is [Infinity]. [JSON.stringify] writes a
      finite number back as it is and [Infinity] as [null]. The ids of the
      stored entries are therefore numbers or [null].
    - The two JSON files under [data/] hold arrays of plain objects; they are
      lists of records, and [JSON.parse (JSON.stringify x)] is the identity
      on them.
    - [new Date().toISOString()] reads a clock; the clock is part of the
      world, every reading consumes one tick.
    - Request bodies have the shape the client sends:
      [{sectionId: int, acknowledged: bool}], [{email, password}],
      [{email, password, name}]. *)

From stdpp Require Import base numbers list strings pretty gmap.

Local Open Scope Z_scope.

(** ** JavaScript numbers *)

(** The integer nearest to [z] among those of at most 53 significant bits,
    the even one of two that are equally near: the value of the double
    nearest to [z], as long as that double is finite. *)
Definition roundInteger (z : Z) : Z :=
  let a := Z.abs z in
  let e := Z.log2 a - 52 in
  if decide (e ≤ 0) then z
  else
    let q := a / 2 ^ e in
    let r := a mod 2 ^ e in
    let half := 2 ^ (e - 1) in
    let q :=
      if decide (r < half) then q
      else if decide (half < r) then q + 1
      else if Z.even q then q else q + 1 in
    Z.sgn z * (q * 2 ^ e).

(** A number read from an integer literal. *)
Inductive Number := Finite (z : Z) | Infinity (negative : bool).

#[global] Instance Number_eq_dec : EqDecision Number.
Proof. solve_decision. Defined.

(** [JSON.parse] on an integer literal: the nearest double, [Infinity] when
    that is beyond the largest double [(2^53 - 1) * 2^971]. *)
Definition parseInteger (z : Z) : Number :=
  if decide (Z.abs (roundInteger z) < 2 ^ 1024) then Finite (roundInteger z)
  else Infinity (bool_decide (z < 0)).

(** The [id] of a stored entry, as JSON text carries it. *)
Inductive JsId := IdNum (z : Z) | IdNull.

#[global] Instance JsId_eq_dec : EqDecision JsId.
Proof. solve_decision. Defined.

#[global] Instance JsId_countable : Countable JsId.
Proof.
  refine (inj_countable' (λ i, match i with IdNum z => Some z | IdNull => None end)
                         (λ o, match o with Some z => IdNum z | None => IdNull end) _).
  by intros [].
Defined.

(** [JSON.stringify] on a number. *)
Definition stringifyNumber (n : Number) : JsId :=
  match n with
  | Finite z => IdNum z
  | Infinity _ => IdNull
  end.

(** ** Data model *)

(** An element of [progress.sections]. *)
Record SectionRecord := mkSection {
  s_id : JsId;
  s_acknowledged : bool;
  s_completedAt : string
}.

(** An element of [data/progress.json]. *)
Record Progress := mkProgress {
  p_userId : Z;
  p_userName : string;
  p_sections : list SectionRecord;
  p_currentSection : Z;
  p_completedSections : Z;
  p_lastUpdated : string
}.

(** An element of [data/users.json]. *)
Record User := mkUser {
  u_id : Z;
  u_email : string;
  u_password : string;
  u_name : string;
  u_role : string
}.

(** [req.session.user], as the login route builds it. *)
Record Identity := mkIdentity {
  i_id : Z;
  i_email : string;
  i_name : string;
  i_role : string
}.

(** [req.session]: [None] is a missing session object, [sess_user] is its
    [user] property ([None] when the property is not set). *)
Record SessionData := mkSession { sess_user : option Identity }.
Definition Session := option SessionData.

Definition loggedIn (u : Identity) : Session := Some (mkSession (Some u)).
Definition anonymous : Session := Some (mkSession None).

(** [req.session && req.session.user] *)
Definition sessionUser (s : Session) : option Identity :=
  match s with
  | Some d => sess_user d
  | None => None
  end.

(** An element of the array answered by [GET /api/admin/progress]:
    [{...p, userName, userEmail}]. [e_progress] holds the properties spread
    from [p], with [userName] as the object literal overwrites it. *)
Record EnrichedProgress := mkEnriched {
  e_progress : Progress;
  e_userEmail : string
}.

(** JSON bodies the routes answer with. *)
Inductive Body :=
| ErrorBody (error : string)                         (* {error} *)
| SuccessBody                                        (* {success: true} *)
| LoginBody (user : Identity)                        (* {success: true, user} *)
| SessionBody (user : Identity)                      (* {user} *)
| ProgressBody (p : Progress)
| AdminProgressBody (l : list EnrichedProgress)
| CreatedBody (id : Z) (email name : string)         (* {success: true, user: {id, email, name}} *)
| UsersBody (l : list Identity)
| UncaughtException.                                 (* Express' answer to a handler that throws *)

Record Response := mkResponse { status : Z; body : Body }.

(** [res.json(b)] answers with status 200, [res.status(n).json(b)] with [n]. *)
Definition json (b : Body) : Response := mkResponse 200 b.
Definition statusJson (n : Z) (b : Body) : Response := mkResponse n b.

(** ** The world: files, clock, entropy *)

Record World := mkWorld {
  usersFile : list User;          (* data/users.json *)
  progressFile : list Progress;   (* data/progress.json *)
  clock : nat → string;           (* the n-th reading of the clock *)
  ticks : nat;                    (* readings taken so far *)
  entropy : nat → string;         (* the n-th salt bcrypt draws *)
  draws : nat
}.

(** Handlers are state transformers over the world. *)
Definition M (A : Type) : Type := World → A * World.

#[global] Instance M_ret : MRet M := λ A a w, (a, w).
#[global] Instance M_bind : MBind M := λ A B k m w, let '(a, w') := m w in k a w'.

Definition readUsers : M (list User) := λ w, (usersFile w, w).

Definition writeUsers (users : list User) : M unit := λ w,
  (tt, mkWorld users (progressFile w) (clock w) (ticks w) (entropy w) (draws w)).

Definition readProgress : M (list Progress) := λ w, (progressFile w, w).

Definition writeProgress (progress : list Progress) : M unit := λ w,
  (tt, mkWorld (usersFile w) progress (clock w) (ticks w) (entropy w) (draws w)).

(** [new Date().toISOString()] *)
Definition newDate : M string := λ w,
  (clock w (ticks w),
   mkWorld (usersFile w) (progressFile w) (clock w) (S (ticks w)) (entropy w) (draws w)).

(** The salt of one [bcrypt.hashSync] call. *)
Definition genSalt : M string := λ w,
  (entropy w (draws w),
   mkWorld (usersFile w) (progressFile w) (clock w) (ticks w) (entropy w) (S (draws w))).

(** ** Array helpers *)

(** [Array.prototype.find]: the first element satisfying the callback.
    Objects are found by reference, so the position comes with it. *)
Definition find {A} (P : A → Prop) `{∀ x, Decision (P x)} (l : list A) : option (nat * A) :=
  list_find P l.

(** [Array.prototype.findIndex]: the position of that element, [-1] when
    there is none. *)
Definition findIndex {A} (P : A → Prop) `{∀ x, Decision (P x)} (l : list A) : Z :=
  match list_find P l with
  | Some (i, _) => Z.of_nat i
  | None => -1
  end.

(** ** Authorization gate *)

(** A middleware either calls [next()] or answers itself. *)
Inductive Outcome := Next | Respond (r : Response).

Definition isAuthenticated (s : Session) : Outcome :=
  match sessionUser s with
  | Some _ => Next
  | None => Respond (statusJson 401 (ErrorBody "Not authenticated"))
  end.

Definition isAdmin (s : Session) : Outcome :=
  match sessionUser s with
  | Some u =>
      if decide (i_role u = "admin") then Next
      else Respond (statusJson 403 (ErrorBody "Admin access required"))
  | None => Respond (statusJson 403 (ErrorBody "Admin access required"))
  end.

(** [app.METHOD(path, mw1, ..., handler)]: the middlewares run in order, the
    first one that answers ends the request. *)
Fixpoint route (mws : list (Session → Outcome)) (handler : Session → M Response)
    (s : Session) : M Response :=
  match mws with
  | [] => handler s
  | mw :: rest =>
      match mw s with
      | Next => route rest handler s
      | Respond r => mret r
      end
  end.

(** A handler body that reads [req.session.user.id] throws a TypeError when
    the session has no user. *)
Definition withUser (s : Session) (k : Identity → M Response) : M Response :=
  match sessionUser s with
  | Some u => k u
  | None => mret (statusJson 500 UncaughtException)
  end.

(** ** Progress engine *)

(** [p => p.userId === req.session.user.id] *)
Definition ownedBy (user : Identity) (p : Progress) : Prop := p_userId p = i_id user.

#[global] Instance ownedBy_dec user p : Decision (ownedBy user p).
Proof. unfold ownedBy. apply _. Defined.

(** The object both progress handlers build for a user without a record. *)
Definition newProgress (user : Identity) (now : string) : Progress :=
  mkProgress (i_id user) (i_name user) [] 0 0 now.

(** [GET /api/progress], the handler (server.js 141-160). *)
Definition getProgressHandler (s : Session) : M Response :=
  withUser s (λ user,
    allProgress ← readProgress;
    match find (ownedBy user) allProgress with
    | None =>
        now ← newDate;
        let newProgress := newProgress user now in
        let allProgress := allProgress ++ [newProgress] in
        _ ← writeProgress allProgress;
        mret (json (ProgressBody newProgress))
    | Some (_, userProgress) => mret (json (ProgressBody userProgress))
    end).

Definition getProgress : Session → M Response :=
  route [isAuthenticated] getProgressHandler.

(** [s => s.id === sectionId]: a stored number equals the same number;
    [null] equals no number, and no stored id is [Infinity]. *)
Definition hasId (sectionId : Number) (s : SectionRecord) : Prop :=
  match s_id s, sectionId with
  | IdNum a, Finite b => a = b
  | _, _ => False
  end.

#[global] Instance hasId_dec sectionId s : Decision (hasId sectionId s).
Proof. unfold hasId. destruct (s_id s), sectionId; apply _. Defined.

(** The two assignments to [sections[sectionIndex]] (server.js 183-184). *)
Definition overwrite (acknowledged : bool) (now : string) (s : SectionRecord) : SectionRecord :=
  mkSection (s_id s) acknowledged now.

(** "Update section" (server.js 181-191). The pushed entry carries the
    number itself; nothing reads its id before the record is written to the
    file and to the answer, both through [JSON.stringify], so the entry is
    kept here as those two carry it. *)
Definition updateSection (sectionId : Number) (acknowledged : bool)
    (sections : list SectionRecord) : M (list SectionRecord) :=
  let sectionIndex := findIndex (hasId sectionId) sections in
  if decide (sectionIndex >= 0) then
    now ← newDate;
    mret (alter (overwrite acknowledged now) (Z.to_nat sectionIndex) sections)
  else
    now ← newDate;
    mret (sections ++ [mkSection (stringifyNumber sectionId) acknowledged now]).

(** [sections.filter(s => s.acknowledged).length] *)
Definition countAcknowledged (sections : list SectionRecord) : Z :=
  Z.of_nat (length (filter (λ s, s_acknowledged s = true) sections)).

(** [POST /api/progress], the handler (server.js 163-206).

    [userProgress] is a reference: either to the element of [allProgress]
    that [find] returned, or to the fresh object pushed at its end. The
    reference is the position [ref]; the assignments to the object's fields
    are visible through [allProgress] at that position. [sectionId] is
    [req.body.sectionId], the number the body parser read. *)
Definition postProgressHandler (sectionId : Number) (acknowledged : bool) (s : Session)
    : M Response :=
  withUser s (λ user,
    allProgress ← readProgress;
    '(allProgress, ref, userProgress) ←
      match find (ownedBy user) allProgress with
      | Some (ref, userProgress) => mret (allProgress, ref, userProgress)
      | None =>
          now ← newDate;
          let userProgress := newProgress user now in
          mret (allProgress ++ [userProgress], length allProgress, userProgress)
      end;
    (* Update section *)
    sections ← updateSection sectionId acknowledged (p_sections userProgress);
    (* Update counters *)
    let completedSections := countAcknowledged sections in
    let currentSection := Z.min completedSections 6 in
    lastUpdated ← newDate;
    let userProgress :=
      mkProgress (p_userId userProgress) (p_userName userProgress)
                 sections currentSection completedSections lastUpdated in
    let allProgress := <[ref := userProgress]> allProgress in
    (* Save *)
    let progressIndex := findIndex (ownedBy user) allProgress in
    let allProgress :=
      if decide (progressIndex >= 0)
      then <[Z.to_nat progressIndex := userProgress]> allProgress
      else allProgress in
    _ ← writeProgress allProgress;
    mret (json (ProgressBody userProgress))).

(** The route, on a body already parsed. *)
Definition postProgress (sectionId : Number) (acknowledged : bool) : Session → M Response :=
  route [isAuthenticated] (postProgressHandler sectionId acknowledged).

(** The route, on a request whose body carries the integer [sectionId]:
    [bodyParser.json()] (server.js 12), then the route. *)
Definition acknowledgeSection (sectionId : Z) (acknowledged : bool) : Session → M Response :=
  postProgress (parseInteger sectionId) acknowledged.

(** ** Sequences of progress calls *)

Inductive Call :=
| GetProgress
| AcknowledgeSection (sectionId : Z) (acknowledged : bool).

Definition call (c : Call) : Session → M Response :=
  match c with
  | GetProgress => getProgress
  | AcknowledgeSection sectionId acknowledged => acknowledgeSection sectionId acknowledged
  end.

(** The calls of a trace, each made by the client holding the given session,
    oldest first; the answers are collected in order. *)
Fixpoint run (trace : list (Session * Call)) : M (list Response) :=
  match trace with
  | [] => mret []
  | (s, c) :: rest =>
      r ← call c s;
      rs ← run rest;
      mret (r :: rs)
  end.

(** Worlds the server can be in: after [initializeDataFiles] created the
    progress file, after a progress call, and after anything that leaves the
    progress file as it is (the other routes, see [otherRoutes_frame]). *)
Inductive reachable : World → Prop :=
| reach_init w : progressFile w = [] → reachable w
| reach_call w s c : reachable w → reachable (call c s w).2
| reach_frame w w' : reachable w → progressFile w' = progressFile w → reachable w'.

(** ** Accounts: login, session, admin routes *)

Section Bcrypt.

(** [bcrypt.compareSync(password, hash)] *)
Variable compareSync : string → string → bool.
(** [bcrypt.hashSync(password, rounds)], as a function of the salt it draws *)
Variable hashSync : string → Z → string → string.

(** [u => u.email === email] *)
Definition hasEmail (email : string) (u : User) : Prop := u_email u = email.

#[global] Instance hasEmail_dec email u : Decision (hasEmail email u).
Proof. unfold hasEmail. apply _. Defined.

Definition identityOf (user : User) : Identity :=
  mkIdentity (u_id user) (u_email user) (u_name user) (u_role user).

(** [POST /api/login] (server.js 99-123). The second component is
    [req.session] when the request ends. *)
Definition login (email password : string) (s : Session) : M (Response * Session) :=
  users ← readUsers;
  match find (hasEmail email) users with
  | None => mret (statusJson 401 (ErrorBody "Invalid credentials"), s)
  | Some (_, user) =>
      if negb (compareSync password (u_password user)) then
        mret (statusJson 401 (ErrorBody "Invalid credentials"), s)
      else
        match s with
        | None => mret (statusJson 500 UncaughtException, s)
        | Some _ =>
            let sessionUser := identityOf user in
            mret (json (LoginBody sessionUser), Some (mkSession (Some sessionUser)))
        end
  end.

(** [POST /api/logout] (server.js 126-129): the session is destroyed, the
    client's next request starts a new one. *)
Definition logout (s : Session) : M (Response * Session) :=
  match s with
  | None => mret (statusJson 500 UncaughtException, s)
  | Some _ => mret (json SuccessBody, anonymous)
  end.

(** [GET /api/session] (server.js 132-138) *)
Definition getSession (s : Session) : M Response :=
  match sessionUser s with
  | Some user => mret (json (SessionBody user))
  | None => mret (statusJson 401 (ErrorBody "Not authenticated"))
  end.

(** [u => u.id === p.userId] *)
Definition hasUserId (userId : Z) (u : User) : Prop := u_id u = userId.

#[global] Instance hasUserId_dec userId u : Decision (hasUserId userId u).
Proof. unfold hasUserId. apply _. Defined.

Definition enrich (users : list User) (p : Progress) : EnrichedProgress :=
  let user := find (hasUserId (p_userId p)) users in
  mkEnriched
    (mkProgress (p_userId p)
                (match user with Some (_, user) => u_name user | None => "Unknown" end)
                (p_sections p) (p_currentSection p) (p_completedSections p)
                (p_lastUpdated p))
    (match user with Some (_, user) => u_email user | None => "Unknown" end).

(** [GET /api/admin/progress] (server.js 209-224) *)
Definition listAllProgress : Session → M Response :=
  route [isAuthenticated; isAdmin] (λ _,
    allProgress ← readProgress;
    users ← readUsers;
    mret (json (AdminProgressBody (enrich users <$> allProgress)))).

(** [Math.max(...users.map(u => u.id), 0) + 1]: the maximum is one of its
    arguments, the sum is the double nearest to the exact sum. *)
Definition nextUserId (users : list User) : Z :=
  roundInteger (foldr Z.max 0 (u_id <$> users) + 1).

(** [POST /api/admin/users] (server.js 227-247) *)
Definition createUser (email password name : string) : Session → M Response :=
  route [isAuthenticated; isAdmin] (λ _,
    users ← readUsers;
    match find (hasEmail email) users with
    | Some _ => mret (statusJson 400 (ErrorBody "User already exists"))
    | None =>
        salt ← genSalt;
        let newUser :=
          mkUser (nextUserId users) email (hashSync password 10 salt) name "staff" in
        _ ← writeUsers (users ++ [newUser]);
        mret (json (CreatedBody (u_id newUser) (u_email newUser) (u_name newUser)))
    end).

(** [GET /api/admin/users] (server.js 250-259) *)
Definition listUsers : Session → M Response :=
  route [isAuthenticated; isAdmin] (λ _,
    users ← readUsers;
    mret (json (UsersBody (identityOf <$> users)))).

End Bcrypt.

(** ** Concrete worlds for the scenarios *)

(** A world as the server finds it on first start: [initializeDataFiles]
    writes [[]] to the progress file. *)
Definition freshWorld (users : list User) : World :=
  mkWorld users [] (λ n, "2025-01-01T00:00:00." +:+ pretty n +:+ "Z") 0 (λ n, pretty n) 0.

(** Stand-ins for bcrypt in the scenarios: the "hash" is the password behind
    a marker, the salt is ignored. *)
Definition plainHash (password : string) (rounds : Z) (salt : string) : string :=
  "plain:" +:+ password.
Definition plainCompare (password hash : string) : bool :=
  bool_decide (hash = "plain:" +:+ password).

(** The two accounts [initializeDataFiles] creates. *)
Definition staff : User :=
  mkUser 2 "staff@maytech.com" (plainHash "staff123" 10 "") "Demo Staff" "staff".
Definition defaultUsers : list User :=
  [ mkUser 1 "admin@maytech.com" (plainHash "admin123" 10 "") "Admin User" "admin";
    staff ].

Definition admin : Identity := mkIdentity 1 "admin@maytech.com" "Admin User" "admin".
Definition alice : Identity := mkIdentity 2 "staff@maytech.com" "Demo Staff" "staff".

(** The first start, and the world after the staff member acknowledged
    section 0. *)
Definition day0 : World := freshWorld defaultUsers.
Definition day1 : World := (acknowledgeSection 0 true (loggedIn alice) day0).2.

(** The staff member's record on day 1, and what two further calls made on
    day 1 answer with: one that takes the acknowledgement of section 0 back,
    one that acknowledges section 1. *)
Definition day1Record : Progress :=
  mkProgress 2 "Demo Staff" [mkSection (IdNum 0) true "2025-01-01T00:00:00.1Z"] 1 1
             "2025-01-01T00:00:00.2Z".
Definition day1Second : Progress :=
  mkProgress 2 "Demo Staff"
             [mkSection (IdNum 0) true "2025-01-01T00:00:00.1Z";
              mkSection (IdNum 1) true "2025-01-01T00:00:00.3Z"] 2 2
             "2025-01-01T00:00:00.4Z".


(** ** Data files at start *)

(** The two files under [data/], each of which may be missing. *)
Record Disk := mkDisk {
  usersJson : option (list User);
  progressJson : option (list Progress)
}.

Section DataFiles.

Variable hashSync : string → Z → string → string.

(** [initializeDataFiles] (server.js 36-60); [salt1] and [salt2] are the
    salts of the two [bcrypt.hashSync] calls it makes when it writes the
    users file. *)
Definition initializeDataFiles (salt1 salt2 : string) (d : Disk) : Disk :=
  let d :=
    match usersJson d with
    | None =>
        let defaultUsers :=
          [ mkUser 1 "admin@maytech.com" (hashSync "admin123" 10 salt1) "Admin User" "admin";
            mkUser 2 "staff@maytech.com" (hashSync "staff123" 10 salt2) "Demo Staff" "staff" ] in
        mkDisk (Some defaultUsers) (progressJson d)
    | Some _ => d
    end in
  match progressJson d with
  | None => mkDisk (usersJson d) (Some [])
  | Some _ => d
  end.

End DataFiles.

(** ** The onboarding page script *)

(** [const totalSections = 7; // 0-6] *)
Definition totalSections : Z := 7.

(** Of the page, the script's two variables and the [disabled] and [checked]
    properties it assigns; texts, CSS classes, scrolling and the progress
    bar are not part of the model. *)
Record Page := mkPage {
  pg_currentSection : Z;               (* let currentSection *)
  pg_userProgress : option Progress;   (* let userProgress, null until loaded *)
  pg_prevDisabled : bool;              (* prevBtn.disabled *)
  pg_nextDisabled : bool;              (* nextBtn.disabled *)
  pg_checked : bool;                   (* acknowledgeCheckbox.checked *)
  pg_ackDisabled : bool                (* acknowledgeBtn.disabled *)
}.

(** [response.ok] *)
Definition ok (r : Response) : bool := bool_decide (200 ≤ status r ≤ 299).

(** [await response.json()] read as a progress record; an answer of another
    shape has none of the properties the script reads. *)
Definition progressOf (r : Response) : option Progress :=
  match body r with
  | ProgressBody p => Some p
  | _ => None
  end.

(** [isSectionAcknowledged(sectionIndex)]; the page's [sectionIndex] is a
    finite number. *)
Definition isSectionAcknowledged (userProgress : option Progress) (sectionIndex : Z) : bool :=
  match userProgress with
  | None => false
  | Some p =>
      match find (hasId (Finite sectionIndex)) (p_sections p) with
      | Some (_, section) => s_acknowledged section
      | None => false
      end
  end.

(** [updateNavigationButtons()] *)
Definition updateNavigationButtons (pg : Page) : Page :=
  let currentSection := pg_currentSection pg in
  let canProgress :=
    isSectionAcknowledged (pg_userProgress pg) currentSection
    || bool_decide (currentSection = totalSections - 1) in
  let hasNext := bool_decide (currentSection < totalSections - 1) in
  mkPage currentSection (pg_userProgress pg)
         (bool_decide (currentSection = 0)) (negb canProgress || negb hasNext)
         (pg_checked pg) (pg_ackDisabled pg).

(** [updateAcknowledgmentArea(isAcknowledged)] *)
Definition updateAcknowledgmentArea (isAcknowledged : bool) (pg : Page) : Page :=
  if decide (pg_currentSection pg = totalSections - 1) then pg
  else if isAcknowledged then
    mkPage (pg_currentSection pg) (pg_userProgress pg)
           (pg_prevDisabled pg) (pg_nextDisabled pg) true false
  else
    mkPage (pg_currentSection pg) (pg_userProgress pg)
           (pg_prevDisabled pg) (pg_nextDisabled pg) false true.

(** [showSection(sectionIndex)] *)
Definition showSection (sectionIndex : Z) (pg : Page) : Page :=
  let pg := mkPage sectionIndex (pg_userProgress pg) (pg_prevDisabled pg)
                   (pg_nextDisabled pg) (pg_checked pg) (pg_ackDisabled pg) in
  let isAcknowledged := isSectionAcknowledged (pg_userProgress pg) sectionIndex in
  let pg := updateNavigationButtons pg in
  updateAcknowledgmentArea isAcknowledged pg.

(** [loadProgress()] *)
Definition loadProgress (s : Session) (pg : Page) : M Page :=
  response ← getProgress s;
  if ok response then
    let userProgress := progressOf response in
    let currentSection :=
      match userProgress with
      | Some p => if decide (p_currentSection p = 0) then 0 else p_currentSection p
      | None => 0
      end in
    mret (mkPage currentSection userProgress (pg_prevDisabled pg) (pg_nextDisabled pg)
                 (pg_checked pg) (pg_ackDisabled pg))
  else mret pg.

(** [saveProgress(sectionId, acknowledged)]. The page's [sectionId] is a
    finite number; [JSON.stringify] writes it so that the server's parser
    reads the same number back, so the route runs on the page's number. *)
Definition saveProgress (s : Session) (sectionId : Z) (acknowledged : bool) (pg : Page)
    : M (bool * Page) :=
  response ← postProgress (Finite sectionId) acknowledged s;
  if ok response then
    mret (true, mkPage (pg_currentSection pg) (progressOf response) (pg_prevDisabled pg)
                       (pg_nextDisabled pg) (pg_checked pg) (pg_ackDisabled pg))
  else mret (false, pg).

(** What the user and the timer can do to the page once the listeners are
    set up. [AdvanceTimeout] is the callback the acknowledge button hands to
    [setTimeout]; [StepClick index] is a click on the [index]-th step of the
    progress strip. *)
Inductive PageEvent :=
| CheckboxChange (checked : bool)
| AcknowledgeClick
| AdvanceTimeout
| PrevClick
| NextClick
| StepClick (index : nat).

(** The listeners of [setupEventListeners()] and the [onclick] handlers
    [updateProgressSteps()] installs. *)
Definition pageEvent (s : Session) (e : PageEvent) (pg : Page) : M Page :=
  match e with
  | CheckboxChange checked =>
      mret (mkPage (pg_currentSection pg) (pg_userProgress pg) (pg_prevDisabled pg)
                   (pg_nextDisabled pg) checked (negb checked))
  | AcknowledgeClick =>
      if negb (pg_checked pg) then mret pg
      else
        let pg := mkPage (pg_currentSection pg) (pg_userProgress pg) (pg_prevDisabled pg)
                         (pg_nextDisabled pg) (pg_checked pg) true in
        saved ← saveProgress s (pg_currentSection pg) true pg;
        let success : bool := saved.1 in
        let pg : Page := saved.2 in
        if success then mret pg
        else mret (mkPage (pg_currentSection pg) (pg_userProgress pg) (pg_prevDisabled pg)
                          (pg_nextDisabled pg) (pg_checked pg) false)
  | AdvanceTimeout =>
      if decide (pg_currentSection pg < totalSections - 1)
      then mret (showSection (pg_currentSection pg + 1) pg)
      else mret pg
  | PrevClick =>
      if decide (pg_currentSection pg > 0)
      then mret (showSection (pg_currentSection pg - 1) pg)
      else mret pg
  | NextClick =>
      if bool_decide (pg_currentSection pg < totalSections - 1)
         && isSectionAcknowledged (pg_userProgress pg) (pg_currentSection pg)
      then mret (showSection (pg_currentSection pg + 1) pg)
      else mret pg
  | StepClick index =>
      if decide (Z.of_nat index < pg_currentSection pg)
      then mret (showSection (Z.of_nat index) pg)
      else mret pg
  end.

(** Where [init()] leaves the browser: on another page, or on the onboarding
    page with the section of the loaded progress shown. *)
Inductive Landing := Redirect (href : string) | Shown (pg : Page).

(** The page when the script starts: [let currentSection = 0] and
    [let userProgress = null], the buttons and the box as the HTML, which is
    not part of the sources, delivers them. *)
Definition scriptStart (html : Page) : Page :=
  mkPage 0 None (pg_prevDisabled html) (pg_nextDisabled html)
         (pg_checked html) (pg_ackDisabled html).

(** [init()] *)
Definition init (s : Session) (html : Page) : M Landing :=
  sessionResponse ← getSession s;
  if negb (ok sessionResponse) then mret (Redirect "/")
  else
    match body sessionResponse with
    | SessionBody currentUser =>
        if decide (i_role currentUser = "admin") then mret (Redirect "/admin")
        else
          pg ← loadProgress s (scriptStart html);
          mret (Shown (showSection (pg_currentSection pg) pg))
    | _ => mret (Redirect "/")
    end.

(** ** The admin page script *)

(** [p => p.userId === user.id], on the entries [GET /api/admin/progress]
    answers with. *)
Definition progressOfUser (user : Identity) (p : EnrichedProgress) : Prop :=
  p_userId (e_progress p) = i_id user.

#[global] Instance progressOfUser_dec user p : Decision (progressOfUser user p).
Proof. unfold progressOfUser. apply _. Defined.

(** The four counters [renderStats()] writes into the page: total staff,
    completed, in progress, not started. *)
Record Stats := mkStats {
  totalStaff : Z;
  completed : Z;
  inProgress : Z;
  notStarted : Z
}.

(** The body of the [forEach] in [renderStats()]. *)
Definition countUser (allProgress : list EnrichedProgress) (st : Stats) (user : Identity)
    : Stats :=
  match find (progressOfUser user) allProgress with
  | None => mkStats (totalStaff st) (completed st) (inProgress st) (notStarted st + 1)
  | Some (_, userProgress) =>
      if decide (p_completedSections (e_progress userProgress) = 0) then
        mkStats (totalStaff st) (completed st) (inProgress st) (notStarted st + 1)
      else if decide (p_completedSections (e_progress userProgress) >= totalSections - 1) then
        mkStats (totalStaff st) (completed st + 1) (inProgress st) (notStarted st)
      else
        mkStats (totalStaff st) (completed st) (inProgress st + 1) (notStarted st)
  end.

(** [renderStats()] (the admin script, api/index.js 451-475). *)
Definition renderStats (allUsers : list Identity) (allProgress : list EnrichedProgress)
    : Stats :=
  let staffUsers := filter (λ u, i_role u = "staff") allUsers in
  foldl (countUser allProgress) (mkStats (Z.of_nat (length staffUsers)) 0 0 0) staffUsers.

(** A section id beyond the range of doubles, the world after the staff
    member acknowledged it on the first day, and after they did so again;
    the answers to the two calls. *)
Definition beyond : Z := 2 ^ 1024.
Definition dayBeyond : World := (acknowledgeSection beyond true (loggedIn alice) day0).2.
Definition dayBeyondAgain : World :=
  (acknowledgeSection beyond true (loggedIn alice) dayBeyond).2.
Definition beyondOnce : Progress :=
  mkProgress 2 "Demo Staff" [mkSection IdNull true "2025-01-01T00:00:00.1Z"] 1 1
             "2025-01-01T00:00:00.2Z".
Definition beyondTwice : Progress :=
  mkProgress 2 "Demo Staff"
             [mkSection IdNull true "2025-01-01T00:00:00.1Z";
              mkSection IdNull true "2025-01-01T00:00:00.3Z"] 2 2
             "2025-01-01T00:00:00.4Z".

(** The answer to an acknowledgement of section 9007199254740993, which is
    [2^53 + 1], on the first day. *)
Definition roundedRecord : Progress :=
  mkProgress 2 "Demo Staff"
             [mkSection (IdNum 9007199254740992) true "2025-01-01T00:00:00.1Z"] 1 1
             "2025-01-01T00:00:00.2Z".

(** ** Concrete pages for the scenarios *)

(** The onboarding page of a user who has ticked the box on section 0. *)
Definition tickedPage : Page := mkPage 0 None true true true false.

(** ** Vocabulary of the statements *)

(** What "Update section" computes, with the clock reading it takes. *)
Definition upsert (sectionId : Number) (acknowledged : bool) (now : string)
    (sections : list SectionRecord) : list SectionRecord :=
  match list_find (hasId sectionId) sections with
  | Some (i, _) => alter (overwrite acknowledged now) i sections
  | None => sections ++ [mkSection (stringifyNumber sectionId) acknowledged now]
  end.

(** The record an acknowledgement builds from the record [base] it works on
    and the two clock readings it takes after loading. *)
Definition acknowledged_record (base : Progress) (sectionId : Number) (acknowledged : bool)
    (now1 now2 : string) : Progress :=
  let sections := upsert sectionId acknowledged now1 (p_sections base) in
  mkProgress (p_userId base) (p_userName base) sections
             (Z.min (countAcknowledged sections) 6) (countAcknowledged sections) now2.

(** The ids of a list of entries that are numbers, in order. *)
Definition numberIds (sections : list SectionRecord) : list Z :=
  omap (λ s, match s_id s with IdNum z => Some z | IdNull => None end) sections.

(** What holds of every record of a reachable progress file. *)
Record wellFormed (p : Progress) : Prop := {
  wf_ids : NoDup (numberIds (p_sections p));
  wf_completed : p_completedSections p = countAcknowledged (p_sections p);
  wf_current : p_currentSection p = Z.min (p_completedSections p) 6
}.

(** A flag as a summand of the count. *)
Definition flag (b : bool) : Z := if b then 1 else 0.

(** The flag the record currently holds for an id; an absent entry counts
    as not acknowledged. *)
Definition currentFlag (sectionId : Number) (sections : list SectionRecord) : bool :=
  match list_find (hasId sectionId) sections with
  | Some (_, s) => s_acknowledged s
  | None => false
  end.

(** The ids of the acknowledged sections of a record, as a set; [null] is
    one id. *)
Definition acknowledgedIds (p : Progress) : gset JsId :=
  list_to_set (s_id <$> filter (λ s, s_acknowledged s = true) (p_sections p)).

(** The number of acknowledged entries of a record whose id is [null]. *)
Definition acknowledgedNulls (p : Progress) : nat :=
  length (filter (λ s, s_id s = IdNull)
                 (filter (λ s, s_acknowledged s = true) (p_sections p))).

(** An integer whose nearest double is finite. *)
Definition inRange (z : Z) : Prop := Z.abs (roundInteger z) < 2 ^ 1024.

#[global] Instance inRange_dec z : Decision (inRange z).
Proof. unfold inRange. apply _. Defined.

(** The record a progress call of [user] works on in world [w]: the first
    one the user owns, or the one the call creates. *)
Definition workingRecord (user : Identity) (w : World) : Progress :=
  match list_find (ownedBy user) (progressFile w) with
  | Some (_, p) => p
  | None => newProgress user (clock w (ticks w))
  end.

(** * Properties *)

(** ** Arrays *)

Section arrays.
Context {A : Type} (P : A → Prop) `{!∀ x, Decision (P x)}.

Lemma findIndex_found (l : list A) i x :
  list_find P l = Some (i, x) → findIndex P l = Z.of_nat i.
Proof. unfold findIndex. by intros ->. Qed.

Lemma findIndex_missing (l : list A) :
  list_find P l = None → findIndex P l = -1.
Proof. unfold findIndex. by intros ->. Qed.

(** Pushing a matching element on an array without one: it is the one
    found afterwards. *)
Lemma list_find_push (l : list A) x :
  list_find P l = None → P x → list_find P (l ++ [x]) = Some (length l, x).
Proof.
  intros Hnone Hx. rewrite list_find_app_r by done. simpl.
  by rewrite decide_True.
Qed.

(** Replacing the found element by another matching one. *)
Lemma list_find_replace (l : list A) i x y :
  list_find P l = Some (i, x) → P y → list_find P (<[i:=y]> l) = Some (i, y).
Proof.
  intros (Hi & _ & Hleast)%list_find_Some Hy.
  apply list_find_insert_Some. right; left.
  split_and!; eauto using lookup_lt_Some.
Qed.

(** Altering the found element, when it still matches. *)
Lemma list_find_alter_found (f : A → A) (l : list A) i x :
  list_find P l = Some (i, x) → P (f x) →
  list_find P (alter f i l) = Some (i, f x).
Proof.
  intros (Hi & _ & Hleast)%list_find_Some Hfx.
  apply list_find_Some. split_and!; [|done|].
  - by rewrite list_lookup_alter_eq, Hi.
  - intros j y Hj Hlt. rewrite list_lookup_alter_ne in Hj by lia. eauto.
Qed.
End arrays.

(** ** Numbers *)

(** Integers up to [2^53] in absolute value are doubles. *)
Lemma roundInteger_exact z : Z.abs z ≤ 2 ^ 53 → roundInteger z = z.
Proof.
  intros Hz. destruct (decide (Z.abs z = 2 ^ 53)) as [Hmax|Hless].
  - destruct (Z.abs_eq_or_opp z) as [Heq|Heq]; rewrite Heq in Hmax.
    + by rewrite Hmax.
    + assert (z = - 2 ^ 53) as -> by lia. by vm_compute.
  - unfold roundInteger. rewrite decide_True; [done|].
    destruct (decide (Z.abs z = 0)) as [->|Hpos]; [by vm_compute|].
    assert (Z.log2 (Z.abs z) < 53); [|lia].
    apply Z.log2_lt_pow2; lia.
Qed.

Lemma parseInteger_exact z : Z.abs z ≤ 2 ^ 53 → parseInteger z = Finite z.
Proof.
  intros Hz. unfold parseInteger. rewrite roundInteger_exact by done.
  rewrite decide_True; [done|].
  assert ((2 : Z) ^ 53 < 2 ^ 1024) by (by apply Z.pow_lt_mono_r). lia.
Qed.

Lemma parseInteger_inRange z : inRange z → parseInteger z = Finite (roundInteger z).
Proof. intros Hz. unfold parseInteger. by rewrite decide_True. Qed.

Lemma parseInteger_out_of_range z :
  ¬ inRange z → parseInteger z = Infinity (bool_decide (z < 0)).
Proof. intros Hz. unfold parseInteger. by rewrite decide_False. Qed.

(** [===] holds between a stored number and the same number only. *)
Lemma hasId_inv sectionId s :
  hasId sectionId s ↔ ∃ z, sectionId = Finite z ∧ s_id s = IdNum z.
Proof.
  unfold hasId. destruct (s_id s) as [a|], sectionId as [b|neg]; split.
  all: try (intros (z & [= ?] & [= ?]); by subst).
  all: try done.
  intros ->. by exists b.
Qed.

Lemma hasId_stringify sectionId s :
  hasId sectionId s → s_id s = stringifyNumber sectionId.
Proof. by intros (z & -> & ->)%hasId_inv. Qed.

Lemma elem_of_numberIds z sections :
  z ∈ numberIds sections ↔ ∃ s, s ∈ sections ∧ s_id s = IdNum z.
Proof.
  unfold numberIds. rewrite list_elem_of_omap. split.
  - intros (s & Hs & Hid). exists s. split; [done|]. by destruct (s_id s); simplify_eq.
  - intros (s & Hs & Hid). exists s. split; [done|]. by rewrite Hid.
Qed.

Lemma numberIds_app l1 l2 : numberIds (l1 ++ l2) = numberIds l1 ++ numberIds l2.
Proof. unfold numberIds. apply omap_app. Qed.

Lemma numberIds_alter f i sections :
  (∀ s, s_id (f s) = s_id s) → numberIds (alter f i sections) = numberIds sections.
Proof.
  intros Hf. revert i. induction sections as [|s l IH]; intros [|i]; csimpl; try done.
  - by rewrite Hf.
  - by rewrite (IH i).
Qed.

Lemma numberIds_filter_NoDup (P : SectionRecord → Prop) `{!∀ s, Decision (P s)} sections :
  NoDup (numberIds sections) → NoDup (numberIds (filter P sections)).
Proof.
  intros Hnd. eapply sublist_NoDup; [exact Hnd|]. clear Hnd.
  unfold numberIds. induction sections as [|s l IH]; [done|].
  rewrite filter_cons. destruct (decide (P s)); csimpl.
  - destruct (s_id s); csimpl; [apply sublist_skip|]; exact IH.
  - destruct (s_id s); csimpl; [apply sublist_cons|]; exact IH.
Qed.

(** ** The section upsert *)


Lemma updateSection_run sectionId acknowledged sections w :
  updateSection sectionId acknowledged sections w
  = (upsert sectionId acknowledged (clock w (ticks w)) sections, (newDate w).2).
Proof.
  unfold updateSection, upsert, findIndex.
  destruct (list_find _ sections) as [[i s]|] eqn:Hfind.
  - rewrite decide_True by lia. by rewrite Nat2Z.id.
  - by rewrite decide_False by lia.
Qed.

(** The upsert leaves an entry carrying the id as [JSON.stringify] writes
    it, the flag of the call and the clock reading. *)
Lemma upsert_entry sectionId acknowledged now sections :
  ∃ i s, upsert sectionId acknowledged now sections !! i = Some s
         ∧ s_id s = stringifyNumber sectionId
         ∧ s_acknowledged s = acknowledged
         ∧ s_completedAt s = now.
Proof.
  unfold upsert. destruct (list_find _ sections) as [[i s]|] eqn:Hfind.
  - apply list_find_Some in Hfind as (Hlook & Hs & _).
    exists i, (overwrite acknowledged now s). split_and!; [|by apply hasId_stringify|done..].
    by rewrite list_lookup_alter_eq, Hlook.
  - exists (length sections), (mkSection (stringifyNumber sectionId) acknowledged now).
    split_and!; [|done..].
    by rewrite lookup_app_r, Nat.sub_diag by lia.
Qed.

(** When the id is a finite number, that entry is the one a later search
    for the id finds. *)
Lemma upsert_find z acknowledged now sections :
  ∃ i s, list_find (hasId (Finite z)) (upsert (Finite z) acknowledged now sections)
         = Some (i, s)
         ∧ s_acknowledged s = acknowledged.
Proof.
  unfold upsert. destruct (list_find _ sections) as [[i s]|] eqn:Hfind.
  - exists i, (overwrite acknowledged now s). split; [|done].
    apply list_find_alter_found; [done|].
    apply list_find_Some in Hfind as (_ & Hs & _). done.
  - eexists _, _. split; [by apply list_find_push|done].
Qed.

(** No search finds an entry for [Infinity]. *)
Lemma list_find_infinity negative sections :
  list_find (hasId (Infinity negative)) sections = None.
Proof.
  apply list_find_None, Forall_forall. intros s _ (z & ? & _)%hasId_inv. done.
Qed.

(** The ids after an upsert: unchanged, or one new id at the end. *)
Lemma upsert_ids sectionId acknowledged now sections :
  s_id <$> upsert sectionId acknowledged now sections
  = match list_find (hasId sectionId) sections with
    | Some _ => s_id <$> sections
    | None => (s_id <$> sections) ++ [stringifyNumber sectionId]
    end.
Proof.
  unfold upsert. destruct (list_find _ sections) as [[i s]|] eqn:Hfind.
  - rewrite (list_fmap_alter s_id _ id) by by apply Forall_true.
    by rewrite list_alter_id.
  - by rewrite fmap_app.
Qed.

Lemma upsert_NoDup sectionId acknowledged now sections :
  NoDup (numberIds sections) →
  NoDup (numberIds (upsert sectionId acknowledged now sections)).
Proof.
  intros Hnd. unfold upsert.
  destruct (list_find _ sections) as [[i s]|] eqn:Hfind.
  - by rewrite numberIds_alter.
  - rewrite numberIds_app. destruct sectionId as [z|negative]; csimpl.
    + apply NoDup_app. split_and!; [done| |apply NoDup_singleton].
      intros x (s & Hs & Hid)%elem_of_numberIds ->%list_elem_of_singleton.
      apply list_find_None in Hfind.
      apply (proj1 (Forall_forall _ _) Hfind s Hs). apply hasId_inv. eauto.
    + by rewrite app_nil_r.
Qed.

(** ** One acknowledgement, step by step *)


Lemma acknowledgeSection_run user sectionId acknowledged w :
  ∃ allProgress ref base now1 now2,
    list_find (ownedBy user) allProgress = Some (ref, base)
    ∧ (list_find (ownedBy user) (progressFile w) = Some (ref, base)
         ∧ allProgress = progressFile w
       ∨ list_find (ownedBy user) (progressFile w) = None
         ∧ base = newProgress user (clock w (ticks w))
         ∧ allProgress = progressFile w ++ [base])
    ∧ let r := acknowledged_record base sectionId acknowledged now1 now2 in
      (postProgress sectionId acknowledged (loggedIn user) w).1 = json (ProgressBody r)
      ∧ progressFile (postProgress sectionId acknowledged (loggedIn user) w).2
        = <[ref := r]> allProgress.
Proof.
  unfold postProgress, route, isAuthenticated, postProgressHandler, withUser; simpl.
  unfold mbind, M_bind, readProgress, find; simpl.
  destruct (list_find (ownedBy user) (progressFile w)) as [[ref base]|] eqn:Hfind; simpl.
  - rewrite updateSection_run; simpl.
    exists (progressFile w), ref, base. eexists _, _.
    split; [done|]. split; [by left|]. simpl.
    assert (ownedBy user base) as Hown by by apply list_find_Some in Hfind as (_ & ? & _).
    erewrite findIndex_found by (by eapply list_find_replace).
    rewrite decide_True by lia. rewrite Nat2Z.id, list_insert_insert_eq.
    done.
  - set (base := newProgress user (clock w (ticks w))).
    assert (list_find (ownedBy user) (progressFile w ++ [base])
            = Some (length (progressFile w), base)) as Hpush
      by by apply list_find_push.
    exists (progressFile w ++ [base]), (length (progressFile w)), base. eexists _, _.
    split; [done|]. split; [by right|]. simpl.
    erewrite findIndex_found by (by eapply list_find_replace).
    rewrite decide_True by lia. rewrite Nat2Z.id, list_insert_insert_eq.
    done.
Qed.

(** ** One read, step by step *)

Lemma getProgress_found user w ref p :
  list_find (ownedBy user) (progressFile w) = Some (ref, p) →
  getProgress (loggedIn user) w = (json (ProgressBody p), w).
Proof.
  intros Hfind.
  unfold getProgress, route, isAuthenticated, getProgressHandler, withUser; simpl.
  unfold mbind, M_bind, readProgress, find; simpl. by rewrite Hfind.
Qed.

Lemma getProgress_missing user w :
  list_find (ownedBy user) (progressFile w) = None →
  let fresh := newProgress user (clock w (ticks w)) in
  (getProgress (loggedIn user) w).1 = json (ProgressBody fresh)
  ∧ progressFile (getProgress (loggedIn user) w).2 = progressFile w ++ [fresh].
Proof.
  intros Hfind.
  unfold getProgress, route, isAuthenticated, getProgressHandler, withUser; simpl.
  unfold mbind, M_bind, readProgress, find; simpl. by rewrite Hfind.
Qed.

(** Without a logged-in user the gate answers and nothing is touched. *)
Lemma call_unauthenticated c s w :
  sessionUser s = None →
  call c s w = (statusJson 401 (ErrorBody "Not authenticated"), w).
Proof.
  intros Hs. destruct c; simpl;
    unfold getProgress, acknowledgeSection, postProgress, route, isAuthenticated; by rewrite Hs.
Qed.

(** ** Invariant of the progress file *)


Lemma newProgress_wellFormed user now : wellFormed (newProgress user now).
Proof. split; simpl; [apply NoDup_nil_2|done..]. Qed.

Lemma acknowledged_record_wellFormed base sectionId acknowledged now1 now2 :
  NoDup (numberIds (p_sections base)) →
  wellFormed (acknowledged_record base sectionId acknowledged now1 now2).
Proof. intros Hnd. split; simpl; [by apply upsert_NoDup|done..]. Qed.

Lemma acknowledgeSection_wellFormed user sectionId acknowledged w :
  Forall wellFormed (progressFile w) →
  Forall wellFormed (progressFile (postProgress sectionId acknowledged (loggedIn user) w).2).
Proof.
  intros Hwf.
  destruct (acknowledgeSection_run user sectionId acknowledged w)
    as (allProgress & ref & base & now1 & now2 & Hfind & Hload & _ & ->).
  assert (Forall wellFormed allProgress ∧ wellFormed base) as [Hall Hbase].
  { destruct Hload as [[Hold ->]|(_ & -> & ->)].
    - split; [done|]. apply list_find_Some in Hold as (Hlook & _).
      by eapply Forall_lookup_1.
    - split; [|apply newProgress_wellFormed].
      apply Forall_app. split; [done|].
      apply Forall_singleton, newProgress_wellFormed. }
  apply Forall_insert; [done|].
  apply acknowledged_record_wellFormed, Hbase.
Qed.

Lemma call_wellFormed c s w :
  Forall wellFormed (progressFile w) →
  Forall wellFormed (progressFile (call c s w).2).
Proof.
  intros Hwf. destruct (sessionUser s) as [user|] eqn:Hs.
  - assert (s = loggedIn user) as ->
      by (destruct s as [[?]|]; simpl in Hs; by simplify_eq).
    destruct c as [|sectionId acknowledged]; simpl.
    + destruct (list_find (ownedBy user) (progressFile w)) as [[ref p]|] eqn:Hfind.
      * by erewrite getProgress_found.
      * destruct (getProgress_missing user w Hfind) as [_ ->].
        apply Forall_app. split; [done|].
        apply Forall_singleton, newProgress_wellFormed.
    + by apply acknowledgeSection_wellFormed.
  - by rewrite call_unauthenticated.
Qed.

Lemma reachable_wellFormed w : reachable w → Forall wellFormed (progressFile w).
Proof.
  induction 1 as [w Hinit|w s c _ IH|w w' _ IH Hframe].
  - rewrite Hinit. constructor.
  - by apply call_wellFormed.
  - by rewrite Hframe.
Qed.

(** Running a trace from a reachable world ends in a reachable world. *)
Lemma run_reachable trace w : reachable w → reachable (run trace w).2.
Proof.
  revert w. induction trace as [|[s c] trace IH]; intros w Hw; [done|].
  simpl. unfold mbind, M_bind.
  destruct (call c s w) as [r w1] eqn:Hcall.
  specialize (IH w1). destruct (run trace w1) as [rs w2]. simpl in *.
  apply IH. change w1 with (r, w1).2. rewrite <-Hcall. by constructor.
Qed.

(** A progress call that answers with a record has stored that record as the
    caller's. *)
Lemma acknowledgeSection_stored user sectionId acknowledged w :
  ∃ ref r,
    (postProgress sectionId acknowledged (loggedIn user) w).1 = json (ProgressBody r)
    ∧ list_find (ownedBy user)
        (progressFile (postProgress sectionId acknowledged (loggedIn user) w).2)
      = Some (ref, r).
Proof.
  destruct (acknowledgeSection_run user sectionId acknowledged w)
    as (allProgress & ref & base & now1 & now2 & Hfind & _ & Hr & ->).
  eexists ref, _. split; [exact Hr|].
  eapply list_find_replace; [done|].
  apply list_find_Some in Hfind as (_ & Hown & _). exact Hown.
Qed.

(** ** Counting acknowledged sections *)


Lemma countAcknowledged_cons s sections :
  countAcknowledged (s :: sections) = flag (s_acknowledged s) + countAcknowledged sections.
Proof.
  unfold countAcknowledged. destruct (s_acknowledged s) eqn:Hs; simpl.
  - rewrite filter_cons_True by done. simpl length. lia.
  - rewrite filter_cons_False by congruence. lia.
Qed.

Lemma countAcknowledged_app l1 l2 :
  countAcknowledged (l1 ++ l2) = countAcknowledged l1 + countAcknowledged l2.
Proof.
  unfold countAcknowledged. rewrite filter_app, length_app. lia.
Qed.

Lemma countAcknowledged_alter f i s sections :
  sections !! i = Some s →
  countAcknowledged (alter f i sections)
  = countAcknowledged sections - flag (s_acknowledged s) + flag (s_acknowledged (f s)).
Proof.
  revert i. induction sections as [|x sections IH]; intros [|i] Hi; simplify_eq/=.
  - rewrite !countAcknowledged_cons. lia.
  - rewrite !countAcknowledged_cons, (IH i) by done. lia.
Qed.


Lemma countAcknowledged_upsert sectionId acknowledged now sections :
  countAcknowledged (upsert sectionId acknowledged now sections)
  = countAcknowledged sections - flag (currentFlag sectionId sections) + flag acknowledged.
Proof.
  unfold upsert, currentFlag.
  destruct (list_find _ sections) as [[i s]|] eqn:Hfind.
  - apply list_find_Some in Hfind as (Hi & _).
    by rewrite (countAcknowledged_alter _ _ s).
  - rewrite countAcknowledged_app, countAcknowledged_cons. simpl.
    unfold countAcknowledged at 2. simpl. lia.
Qed.


Lemma filter_null_empty (l : list SectionRecord) :
  IdNull ∉ s_id <$> l → filter (λ s, s_id s = IdNull) l = [].
Proof.
  induction l as [|s l IH]; [done|]. csimpl. intros Hnot.
  apply not_elem_of_cons in Hnot as [Hs Hl].
  rewrite filter_cons_False by done. by apply IH.
Qed.

Lemma filter_null_nonempty (l : list SectionRecord) :
  IdNull ∈ s_id <$> l → (0 < length (filter (λ s, s_id s = IdNull) l))%nat.
Proof.
  intros (s & Hid & Hs)%list_elem_of_fmap.
  assert (s ∈ filter (λ s, s_id s = IdNull) l) as Hin by by apply list_elem_of_filter.
  destruct (filter _ l); [by apply elem_of_nil in Hin|simpl; lia].
Qed.

(** Entries whose numeric ids are pairwise distinct: as many as there are
    distinct ids, plus one for every entry with id [null] after the first. *)
Lemma length_distinct_ids (l : list SectionRecord) :
  NoDup (numberIds l) →
  length l
  = (size (list_to_set (s_id <$> l) : gset JsId)
     + pred (length (filter (λ s, s_id s = IdNull) l)))%nat.
Proof.
  induction l as [|s l IH]; intros Hnd; [done|].
  csimpl. destruct (s_id s) as [z|] eqn:Hid.
  - unfold numberIds in Hnd. csimpl in Hnd. rewrite Hid in Hnd. csimpl in Hnd.
    apply NoDup_cons in Hnd as [Hz Hnd].
    rewrite filter_cons_False by (by rewrite Hid).
    rewrite size_union, size_singleton, (IH Hnd); [done|].
    apply disjoint_singleton_l. rewrite elem_of_list_to_set.
    intros (s' & Hid' & Hs')%list_elem_of_fmap.
    apply Hz, elem_of_numberIds. eauto.
  - unfold numberIds in Hnd. csimpl in Hnd. rewrite Hid in Hnd. csimpl in Hnd.
    rewrite filter_cons_True by done. simpl.
    rewrite (IH Hnd) at 1.
    destruct (decide (IdNull ∈ s_id <$> l)) as [Hin|Hnot].
    + pose proof (filter_null_nonempty l Hin).
      rewrite subseteq_union_1_L by (apply singleton_subseteq_l; by rewrite elem_of_list_to_set).
      lia.
    + rewrite (filter_null_empty l Hnot). simpl.
      rewrite size_union, size_singleton; [lia|].
      apply disjoint_singleton_l. by rewrite elem_of_list_to_set.
Qed.

Lemma wellFormed_counts_distinct p :
  wellFormed p →
  p_completedSections p = Z.of_nat (size (acknowledgedIds p) + pred (acknowledgedNulls p)).
Proof.
  intros [Hids Hcount _]. rewrite Hcount.
  unfold countAcknowledged, acknowledgedIds, acknowledgedNulls.
  by rewrite <-length_distinct_ids by by apply numberIds_filter_NoDup.
Qed.

(** ** Claims about the progress engine *)

(** C1, as far as it holds. Whatever progress calls were made since the
    progress file was created, the record an acknowledgement answers with
    (which is also the caller's record in the file afterwards) has
    [completedSections] equal to the number of distinct section ids whose
    entry is acknowledged, plus one for every acknowledged entry with id
    [null] after the first. Entries with id [null] come from section ids
    beyond the range of doubles only; without two of them acknowledged the
    count is the number of distinct acknowledged ids. *)
Theorem completedSections_counts_acknowledged_ids w user sectionId acknowledged :
  reachable w →
  ∃ ref r,
    (acknowledgeSection sectionId acknowledged (loggedIn user) w).1 = json (ProgressBody r)
    ∧ list_find (ownedBy user)
        (progressFile (acknowledgeSection sectionId acknowledged (loggedIn user) w).2)
      = Some (ref, r)
    ∧ p_completedSections r
      = Z.of_nat (size (acknowledgedIds r) + pred (acknowledgedNulls r))
    ∧ ((acknowledgedNulls r ≤ 1)%nat →
       p_completedSections r = Z.of_nat (size (acknowledgedIds r))).
Proof.
  intros Hw. unfold acknowledgeSection.
  destruct (acknowledgeSection_stored user (parseInteger sectionId) acknowledged w)
    as (ref & r & Hr & Hstored).
  assert (p_completedSections r
          = Z.of_nat (size (acknowledgedIds r) + pred (acknowledgedNulls r))) as Hcount;
    [|exists ref, r; split_and!; [done..|intros Hnulls; rewrite Hcount; lia]].
  apply wellFormed_counts_distinct.
  pose proof (reach_call w (loggedIn user) (AcknowledgeSection sectionId acknowledged) Hw)
    as Hw'%reachable_wellFormed.
  apply list_find_Some in Hstored as (Hlook & _).
  by eapply Forall_lookup_1.
Qed.

(** Every record a progress call answers with is in the file afterwards. *)
Lemma call_answer_stored c s w r :
  (call c s w).1 = json (ProgressBody r) → r ∈ progressFile (call c s w).2.
Proof.
  destruct (sessionUser s) as [user|] eqn:Hs.
  - assert (s = loggedIn user) as ->
      by (destruct s as [[?]|]; simpl in Hs; by simplify_eq).
    destruct c as [|sectionId acknowledged]; simpl.
    + destruct (list_find (ownedBy user) (progressFile w)) as [[ref p]|] eqn:Hfind.
      * erewrite getProgress_found by done. simpl. intros [= <-].
        apply list_find_Some in Hfind as (Hlook & _).
        by eapply list_elem_of_lookup_2.
      * destruct (getProgress_missing user w Hfind) as [-> ->].
        intros [= <-]. apply elem_of_app. right. by apply list_elem_of_singleton.
    + unfold acknowledgeSection.
      destruct (acknowledgeSection_stored user (parseInteger sectionId) acknowledged w)
        as (ref & r' & -> & Hstored).
      intros [= <-]. apply list_find_Some in Hstored as (Hlook & _).
      by eapply list_elem_of_lookup_2.
  - rewrite call_unauthenticated by done. simpl. discriminate.
Qed.

(** C2. In every world reached through [getProgress] and
    [acknowledgeSection] calls, in whatever order and by whatever users,
    every stored record has [currentSection = min(completedSections, 6)],
    and so has every record a further call answers with. *)
Theorem currentSection_is_min_completed_6 w :
  reachable w →
  Forall (λ p, p_currentSection p = Z.min (p_completedSections p) 6) (progressFile w)
  ∧ ∀ c s r, (call c s w).1 = json (ProgressBody r) →
             p_currentSection r = Z.min (p_completedSections r) 6.
Proof.
  intros Hw. split.
  - eapply Forall_impl; [by apply reachable_wellFormed|]. by intros p [].
  - intros c s r Hr%call_answer_stored.
    pose proof (reach_call w s c Hw) as Hw'%reachable_wellFormed.
    by destruct (proj1 (Forall_forall _ _) Hw' r Hr).
Qed.

(** C10, as far as it holds. In every reachable world, no record holds two
    entries with the same number as section id. (Ids beyond the range of
    doubles are stored as [null], and entries with id [null] can repeat.) *)
Theorem sections_hold_one_entry_per_number w :
  reachable w →
  Forall (λ p, NoDup (numberIds (p_sections p))) (progressFile w).
Proof.
  intros Hw. eapply Forall_impl; [by apply reachable_wellFormed|]. by intros p [].
Qed.

(** C9, as far as it holds. An acknowledgement by a logged-in user is
    answered with status 200 and the updated record, whatever integer the
    section id is; the record holds an entry with the flag of the call and
    with the id as JavaScript read and wrote it: the nearest double, [null]
    beyond the range of doubles, and the id itself when its absolute value
    is at most [2^53]. The record is the caller's record in the file
    afterwards. *)
Theorem acknowledgeSection_accepts_every_id w user sectionId acknowledged :
  ∃ ref r,
    (acknowledgeSection sectionId acknowledged (loggedIn user) w).1
      = mkResponse 200 (ProgressBody r)
    ∧ (∃ s, s ∈ p_sections r
            ∧ s_id s = stringifyNumber (parseInteger sectionId)
            ∧ s_acknowledged s = acknowledged)
    ∧ list_find (ownedBy user)
        (progressFile (acknowledgeSection sectionId acknowledged (loggedIn user) w).2)
      = Some (ref, r)
    ∧ (Z.abs sectionId ≤ 2 ^ 53 →
       stringifyNumber (parseInteger sectionId) = IdNum sectionId).
Proof.
  unfold acknowledgeSection.
  destruct (acknowledgeSection_run user (parseInteger sectionId) acknowledged w)
    as (allProgress & ref & base & now1 & now2 & Hfind & _ & Hr & Hfile).
  eexists ref, _. split_and!; [exact Hr| | |].
  - simpl.
    destruct (upsert_entry (parseInteger sectionId) acknowledged now1 (p_sections base))
      as (i & s & Hlook & Hid & Hflag & _).
    exists s. split_and!; [by eapply list_elem_of_lookup_2|done..].
  - rewrite Hfile. eapply list_find_replace; [done|].
    apply list_find_Some in Hfind as (_ & Hown & _). exact Hown.
  - intros Hsafe. by rewrite parseInteger_exact.
Qed.

(** C5, as far as it holds. Acknowledging the same section with
    [acknowledged = true] twice in succession, from any state of the
    progress file, when the section id is within the range of doubles: the
    second answer carries the same [completedSections] as the first. *)
Theorem acknowledging_twice_counts_once w user sectionId :
  inRange sectionId →
  ∃ r1 r2,
    (acknowledgeSection sectionId true (loggedIn user) w).1 = json (ProgressBody r1)
    ∧ (acknowledgeSection sectionId true (loggedIn user)
         (acknowledgeSection sectionId true (loggedIn user) w).2).1
      = json (ProgressBody r2)
    ∧ p_completedSections r2 = p_completedSections r1.
Proof.
  intros Hrange%parseInteger_inRange. unfold acknowledgeSection. rewrite Hrange.
  set (n := Finite (roundInteger sectionId)).
  destruct (acknowledgeSection_run user n true w)
    as (all1 & ref1 & base1 & t1 & t1' & Hfind1 & _ & Hr1 & Hfile1).
  set (w1 := (postProgress n true (loggedIn user) w).2) in *.
  set (r1 := acknowledged_record base1 n true t1 t1') in *.
  assert (list_find (ownedBy user) (progressFile w1) = Some (ref1, r1)) as Hstored.
  { rewrite Hfile1. eapply list_find_replace; [done|].
    apply list_find_Some in Hfind1 as (_ & Hown & _). exact Hown. }
  destruct (acknowledgeSection_run user n true w1)
    as (all2 & ref2 & base2 & t2 & t2' & _ & Hload & Hr2 & _).
  destruct Hload as [[Hold _]|[Hnone _]]; [|congruence].
  assert (base2 = r1) as -> by congruence.
  eexists r1, _. split_and!; [exact Hr1|exact Hr2|].
  simpl. rewrite countAcknowledged_upsert.
  destruct (upsert_find (roundInteger sectionId) true t1 (p_sections base1))
    as (i & s & Hs & Hflag).
  unfold currentFlag. subst n. rewrite Hs, Hflag. simpl. lia.
Qed.

(** The record a read answers with is the record an acknowledgement made in
    the same world starts from. *)
Lemma acknowledgeSection_from_read user sectionId acknowledged w before after :
  (getProgress (loggedIn user) w).1 = json (ProgressBody before) →
  (postProgress sectionId acknowledged (loggedIn user) w).1 = json (ProgressBody after) →
  (before ∈ progressFile w ∨ ∃ now, before = newProgress user now)
  ∧ ∃ now1 now2, after = acknowledged_record before sectionId acknowledged now1 now2.
Proof.
  intros Hget Hack.
  destruct (acknowledgeSection_run user sectionId acknowledged w)
    as (allProgress & ref & base & now1 & now2 & _ & Hload & Hr & _).
  rewrite Hr in Hack. injection Hack as <-.
  destruct Hload as [[Hold _]|(Hnone & -> & _)].
  - erewrite getProgress_found in Hget by done. injection Hget as <-.
    split; [left|by eauto].
    apply list_find_Some in Hold as (Hlook & _). by eapply list_elem_of_lookup_2.
  - destruct (getProgress_missing user w Hnone) as [Hfresh _].
    rewrite Hfresh in Hget. injection Hget as <-. split; by eauto.
Qed.


(** C4. A read by a user who has no record answers with a new record
    (no sections, both counters 0, [lastUpdated] the clock reading) that is
    in the file when the call returns; and a read repeated right after any
    read gives the same answer and leaves the world as it is. *)
Theorem getProgress_creates_once_and_repeats user w :
  (Forall (λ p, p_userId p ≠ i_id user) (progressFile w) →
   (getProgress (loggedIn user) w).1
   = json (ProgressBody (mkProgress (i_id user) (i_name user) [] 0 0 (clock w (ticks w))))
   ∧ progressFile (getProgress (loggedIn user) w).2
     = progressFile w ++ [mkProgress (i_id user) (i_name user) [] 0 0 (clock w (ticks w))])
  ∧ ∀ s, getProgress s (getProgress s w).2 = getProgress s w.
Proof.
  split.
  - intros Hnone. apply getProgress_missing. by apply list_find_None.
  - intros s. destruct (sessionUser s) as [u|] eqn:Hs.
    + assert (s = loggedIn u) as ->
        by (destruct s as [[?]|]; simpl in Hs; by simplify_eq).
      destruct (list_find (ownedBy u) (progressFile w)) as [[ref p]|] eqn:Hfind.
      * rewrite (getProgress_found _ _ _ _ Hfind). simpl.
        by rewrite (getProgress_found _ _ _ _ Hfind).
      * destruct (getProgress_missing u w Hfind) as [Hr Hfile].
        destruct (getProgress (loggedIn u) w) as [r w1]; simpl in *. subst r.
        eapply getProgress_found. rewrite Hfile. by apply list_find_push.
    + pose proof (call_unauthenticated GetProgress s) as Hcall. simpl in Hcall.
      by rewrite !Hcall.
Qed.

(** ** Claims about the gate and the accounts *)

(** C8. [isAdmin] lets a request through exactly when [isAuthenticated]
    does and the role of the session's user is ['admin']; whenever it does
    not, it answers 403. *)
Theorem isAdmin_iff_authenticated_admin s :
  (isAdmin s = Next
   ↔ isAuthenticated s = Next ∧ ∃ u, sessionUser s = Some u ∧ i_role u = "admin")
  ∧ (isAdmin s ≠ Next →
     isAdmin s = Respond (mkResponse 403 (ErrorBody "Admin access required"))).
Proof.
  unfold isAdmin, isAuthenticated.
  destruct (sessionUser s) as [u|].
  - destruct (decide (i_role u = "admin")) as [Hadmin|Hother].
    + split; [|done]. split; [by eauto|done].
    + split; [|done]. split; [done|].
      intros [_ (u' & [= <-] & Hrole)]. done.
  - split; [|done]. split; [done|]. intros [? _]. done.
Qed.

(** On an admin route the two checks run in order: no user gives 401, a
    user who is not an admin 403, and in both cases the handler does not
    run. *)
Lemma admin_route_gate handler s w :
  route [isAuthenticated; isAdmin] handler s w
  = match sessionUser s with
    | None => (statusJson 401 (ErrorBody "Not authenticated"), w)
    | Some u =>
        if decide (i_role u = "admin") then handler s w
        else (statusJson 403 (ErrorBody "Admin access required"), w)
    end.
Proof.
  unfold route, isAuthenticated, isAdmin.
  destruct (sessionUser s) as [u|]; [|done]. by destruct (decide _).
Qed.

(** C6. Creating a user under an email some stored user already has leaves
    the world, the users file in it, exactly as it was, whoever asks; and
    for a caller who passes the admin gate the answer is 400
    "User already exists". *)
Theorem createUser_existing_email_rejected
    (hashSync : string → Z → string → string) w s email password name u :
  u ∈ usersFile w → u_email u = email →
  (createUser hashSync email password name s w).2 = w
  ∧ (isAdmin s = Next →
     (createUser hashSync email password name s w).1
     = mkResponse 400 (ErrorBody "User already exists")).
Proof.
  intros Hu Hemail.
  destruct (list_find_elem_of (hasEmail email) (usersFile w) u Hu Hemail) as [[i u'] Hfind].
  unfold createUser. rewrite admin_route_gate.
  unfold isAdmin. destruct (sessionUser s) as [a|]; [|done].
  destruct (decide (i_role a = "admin")); [|done].
  unfold mbind, M_bind, readUsers, find; simpl. by rewrite Hfind.
Qed.

(** C7. A login under an email no stored user has, and a login under the
    email of a stored user with a password that does not match the stored
    hash, are answered alike: 401 "Invalid credentials", session and world
    untouched. *)
Theorem login_failures_look_alike
    (compareSync : string → string → bool) w s1 s2
    email1 password1 email2 password2 ref user :
  Forall (λ u, u_email u ≠ email1) (usersFile w) →
  find (hasEmail email2) (usersFile w) = Some (ref, user) →
  compareSync password2 (u_password user) = false →
  login compareSync email1 password1 s1 w
    = (mkResponse 401 (ErrorBody "Invalid credentials"), s1, w)
  ∧ login compareSync email2 password2 s2 w
    = (mkResponse 401 (ErrorBody "Invalid credentials"), s2, w).
Proof.
  intros Hnone%(list_find_None (hasEmail email1)) Hfound Hwrong.
  unfold login, mbind, M_bind, readUsers, find in *; simpl.
  by rewrite Hnone, Hfound, Hwrong.
Qed.

(** The account routes leave the progress file alone. *)
Lemma otherRoutes_frame compareSync hashSync s w :
  (∀ email password, progressFile (login compareSync email password s w).2 = progressFile w)
  ∧ progressFile (logout s w).2 = progressFile w
  ∧ progressFile (getSession s w).2 = progressFile w
  ∧ progressFile (listAllProgress s w).2 = progressFile w
  ∧ (∀ email password name,
       progressFile (createUser hashSync email password name s w).2 = progressFile w)
  ∧ progressFile (listUsers s w).2 = progressFile w.
Proof.
  split_and!; intros;
    unfold login, logout, getSession, listAllProgress, createUser, listUsers;
    rewrite ?admin_route_gate;
    unfold mbind, M_bind, readUsers, readProgress, find; simpl;
    repeat (case_match; simpl; try done).
Qed.

(** * Scenarios *)

Lemma day1_reachable : reachable day1.
Proof.
  exact (reach_call day0 (loggedIn alice) (AcknowledgeSection 0 true)
           (reach_init day0 eq_refl)).
Qed.

(** A first read, then sections 0 to 5 acknowledged in order: the counters
    go up together, and [currentSection] is at 6 when six sections are
    acknowledged although section 6 never was. *)
Example scenario_onboarding :
  let answers :=
    (run ((loggedIn alice, GetProgress)
          :: ((λ i, (loggedIn alice, AcknowledgeSection i true)) <$> [0; 1; 2; 3; 4; 5]))
         day0).1 in
  (λ r, match body r with
        | ProgressBody p => (status r, p_completedSections p, p_currentSection p)
        | _ => (status r, -1, -1)
        end) <$> answers
  = [(200, 0, 0); (200, 1, 1); (200, 2, 2); (200, 3, 3); (200, 4, 4); (200, 5, 5); (200, 6, 6)].
Proof. vm_compute. reflexivity. Qed.

Example scenario_first_get :
  (getProgress (loggedIn alice) day0).1
  = json (ProgressBody (mkProgress 2 "Demo Staff" [] 0 0 "2025-01-01T00:00:00.0Z")).
Proof. vm_compute. reflexivity. Qed.

(** A staff member asking for the user list: 403, nothing changed. *)
Example scenario_staff_lists_users :
  listUsers (loggedIn alice) day1
  = (mkResponse 403 (ErrorBody "Admin access required"), day1).
Proof. reflexivity. Qed.

(** The admin creates an account under a new email: it gets the next id
    and the role ['staff'], and it is the third user in the file. *)
Example scenario_admin_creates_user :
  let '(answer, w) :=
    createUser plainHash "new@maytech.com" "secret" "New Staff" (loggedIn admin) day0 in
  answer = json (CreatedBody 3 "new@maytech.com" "New Staff")
  ∧ usersFile w = defaultUsers ++ [mkUser 3 "new@maytech.com" "plain:secret" "New Staff" "staff"].
Proof. split; reflexivity. Qed.

(** The admin logs in with the right password. *)
Example scenario_admin_login :
  login plainCompare "admin@maytech.com" "admin123" anonymous day0
  = (json (LoginBody admin), loggedIn admin, day0).
Proof. reflexivity. Qed.


Lemma dayBeyond_reachable : reachable dayBeyond.
Proof.
  exact (reach_call day0 (loggedIn alice) (AcknowledgeSection beyond true)
           (reach_init day0 eq_refl)).
Qed.

Lemma dayBeyondAgain_reachable : reachable dayBeyondAgain.
Proof.
  exact (reach_call dayBeyond (loggedIn alice) (AcknowledgeSection beyond true)
           dayBeyond_reachable).
Qed.

(** C1 as stated fails. The section id [2^1024] is read as [Infinity] and
    written as [null]; acknowledged twice it leaves two acknowledged
    entries, so [completedSections] is 2 while the acknowledged entries
    carry one id. *)
Lemma acknowledging_beyond_twice_counts_one_id_twice :
  reachable dayBeyond
  ∧ (acknowledgeSection beyond true (loggedIn alice) dayBeyond).1
    = json (ProgressBody beyondTwice)
  ∧ p_completedSections beyondTwice = 2
  ∧ size (acknowledgedIds beyondTwice) = 1%nat.
Proof.
  split_and!; [apply dayBeyond_reachable|vm_compute; reflexivity..].
Qed.

(** C10 as stated fails. After the same two calls the stored record of the
    staff member holds two entries with the id [null]. *)
Lemma acknowledging_beyond_twice_leaves_two_entries :
  reachable dayBeyondAgain
  ∧ progressFile dayBeyondAgain = [beyondTwice]
  ∧ s_id <$> p_sections beyondTwice = [IdNull; IdNull]
  ∧ ¬ NoDup (s_id <$> p_sections beyondTwice).
Proof.
  split_and!; [apply dayBeyondAgain_reachable|vm_compute; reflexivity..|].
  intros Hnd. apply NoDup_cons in Hnd as [Hnot _]. apply Hnot. by left.
Qed.

(** C5 as stated fails. Acknowledging section [2^1024] twice in succession
    answers with [completedSections] 1, then 2: the second call does not
    find the entry of the first. *)
Lemma acknowledging_beyond_twice_counts_twice :
  (acknowledgeSection beyond true (loggedIn alice) day0).1 = json (ProgressBody beyondOnce)
  ∧ (acknowledgeSection beyond true (loggedIn alice)
       (acknowledgeSection beyond true (loggedIn alice) day0).2).1
    = json (ProgressBody beyondTwice)
  ∧ p_completedSections beyondOnce = 1
  ∧ p_completedSections beyondTwice = 2.
Proof. split_and!; vm_compute; reflexivity. Qed.

(** C9 as stated fails. The section id 9007199254740993 is read as the
    double 9007199254740992; the answer holds an entry with that id and none
    with the id given. *)
Lemma id_above_2_53_is_stored_rounded :
  (acknowledgeSection 9007199254740993 true (loggedIn alice) day0).1
  = json (ProgressBody roundedRecord)
  ∧ s_id <$> p_sections roundedRecord = [IdNum 9007199254740992]
  ∧ ¬ ∃ s, s ∈ p_sections roundedRecord ∧ s_id s = IdNum 9007199254740993.
Proof.
  split_and!; [vm_compute; reflexivity..|].
  intros (s & Hs & Hid). apply list_elem_of_singleton in Hs. by subst s.
Qed.

(** ** Instances of the theorems that have hypotheses *)

Lemma completedSections_counts_acknowledged_ids_day1 :
  reachable day1
  ∧ ∃ ref r,
      (acknowledgeSection 3 true (loggedIn alice) day1).1 = json (ProgressBody r)
      ∧ list_find (ownedBy alice)
          (progressFile (acknowledgeSection 3 true (loggedIn alice) day1).2)
        = Some (ref, r)
      ∧ p_completedSections r
        = Z.of_nat (size (acknowledgedIds r) + pred (acknowledgedNulls r))
      ∧ ((acknowledgedNulls r ≤ 1)%nat →
         p_completedSections r = Z.of_nat (size (acknowledgedIds r))).
Proof.
  split; [exact day1_reachable|].
  apply (completedSections_counts_acknowledged_ids day1 alice 3 true).
  exact day1_reachable.
Defined.

Lemma currentSection_is_min_completed_6_day1 :
  reachable day1
  ∧ Forall (λ p, p_currentSection p = Z.min (p_completedSections p) 6) (progressFile day1)
  ∧ ∀ c s r, (call c s day1).1 = json (ProgressBody r) →
             p_currentSection r = Z.min (p_completedSections r) 6.
Proof.
  split; [exact day1_reachable|].
  apply (currentSection_is_min_completed_6 day1).
  exact day1_reachable.
Defined.

Lemma sections_hold_one_entry_per_number_day1 :
  reachable day1
  ∧ Forall (λ p, NoDup (numberIds (p_sections p))) (progressFile day1).
Proof.
  split; [exact day1_reachable|].
  apply (sections_hold_one_entry_per_number day1).
  exact day1_reachable.
Defined.

Lemma acknowledging_twice_counts_once_day1 :
  inRange 3
  ∧ ∃ r1 r2,
      (acknowledgeSection 3 true (loggedIn alice) day1).1 = json (ProgressBody r1)
      ∧ (acknowledgeSection 3 true (loggedIn alice)
           (acknowledgeSection 3 true (loggedIn alice) day1).2).1
        = json (ProgressBody r2)
      ∧ p_completedSections r2 = p_completedSections r1.
Proof.
  assert (inRange 3) as Hrange by (vm_compute; reflexivity).
  split; [exact Hrange|].
  exact (acknowledging_twice_counts_once day1 alice 3 Hrange).
Defined.

Lemma acknowledgeSection_accepts_every_id_day1 :
  Z.abs 7 ≤ 2 ^ 53 ∧ stringifyNumber (parseInteger 7) = IdNum 7.
Proof.
  assert (Z.abs 7 ≤ 2 ^ 53) as Hsafe by (vm_compute; discriminate).
  destruct (acknowledgeSection_accepts_every_id day1 alice 7 true)
    as (ref & r & _ & _ & _ & Hid).
  split; [exact Hsafe|exact (Hid Hsafe)].
Defined.


Lemma getProgress_creates_once_and_repeats_day0 :
  Forall (λ p, p_userId p ≠ i_id alice) (progressFile day0)
  ∧ (getProgress (loggedIn alice) day0).1
    = json (ProgressBody (mkProgress 2 "Demo Staff" [] 0 0 (clock day0 0)))
  ∧ progressFile (getProgress (loggedIn alice) day0).2
    = progressFile day0 ++ [mkProgress 2 "Demo Staff" [] 0 0 (clock day0 0)].
Proof.
  assert (Forall (λ p, p_userId p ≠ i_id alice) (progressFile day0)) as Hnone
    by (simpl; constructor).
  split; [exact Hnone|].
  exact (proj1 (getProgress_creates_once_and_repeats alice day0) Hnone).
Defined.

Lemma createUser_existing_email_rejected_day0 :
  staff ∈ usersFile day0
  ∧ u_email staff = "staff@maytech.com"
  ∧ (createUser plainHash "staff@maytech.com" "secret" "Second Staff" (loggedIn admin) day0).2
    = day0
  ∧ (isAdmin (loggedIn admin) = Next →
     (createUser plainHash "staff@maytech.com" "secret" "Second Staff" (loggedIn admin) day0).1
     = mkResponse 400 (ErrorBody "User already exists")).
Proof.
  assert (staff ∈ usersFile day0) as Hin by (simpl; right; left).
  assert (u_email staff = "staff@maytech.com") as Hemail by reflexivity.
  split_and!; [exact Hin|exact Hemail|..];
    apply (createUser_existing_email_rejected plainHash day0 (loggedIn admin)
             "staff@maytech.com" "secret" "Second Staff" staff Hin Hemail).
Defined.

Lemma login_failures_look_alike_day0 :
  Forall (λ u, u_email u ≠ "nobody@maytech.com") (usersFile day0)
  ∧ find (hasEmail "staff@maytech.com") (usersFile day0) = Some (1%nat, staff)
  ∧ plainCompare "guess" (u_password staff) = false
  ∧ login plainCompare "nobody@maytech.com" "guess" anonymous day0
    = (mkResponse 401 (ErrorBody "Invalid credentials"), anonymous, day0)
  ∧ login plainCompare "staff@maytech.com" "guess" anonymous day0
    = (mkResponse 401 (ErrorBody "Invalid credentials"), anonymous, day0).
Proof.
  assert (Forall (λ u, u_email u ≠ "nobody@maytech.com") (usersFile day0)) as Hnone
    by (simpl; repeat constructor; discriminate).
  assert (find (hasEmail "staff@maytech.com") (usersFile day0) = Some (1%nat, staff))
    as Hfound by reflexivity.
  assert (plainCompare "guess" (u_password staff) = false) as Hwrong by reflexivity.
  split_and!; [exact Hnone|exact Hfound|exact Hwrong|..];
    apply (login_failures_look_alike plainCompare day0 anonymous anonymous
             "nobody@maytech.com" "guess" "staff@maytech.com" "guess" 1%nat staff
             Hnone Hfound Hwrong).
Defined.

(** * Further properties of the progress engine *)

Section arrays_other.
Context {A : Type} (P : A → Prop) `{!∀ x, Decision (P x)}.

(** Replacing an element that does not match by another that does not. *)
Lemma list_find_insert_other (l : list A) i x y :
  l !! i = Some x → ¬ P x → ¬ P y → list_find P (<[i:=y]> l) = list_find P l.
Proof.
  revert i. induction l as [|z l IH]; intros [|i] Hi Hx Hy; simplify_eq/=.
  - by rewrite !decide_False.
  - by rewrite (IH i).
Qed.

Lemma list_find_alter_other (f : A → A) (l : list A) i x :
  l !! i = Some x → ¬ P x → ¬ P (f x) → list_find P (alter f i l) = list_find P l.
Proof.
  revert i. induction l as [|z l IH]; intros [|i] Hi Hx Hy; simplify_eq/=.
  - by rewrite !decide_False.
  - by rewrite (IH i).
Qed.

(** Pushing an element that does not match. *)
Lemma list_find_push_other (l : list A) y :
  ¬ P y → list_find P (l ++ [y]) = list_find P l.
Proof.
  intros Hy. induction l as [|z l IH]; simpl.
  - by rewrite decide_False.
  - by rewrite IH.
Qed.
End arrays_other.

(** The acknowledgement in terms of the record it works on. *)
Lemma acknowledgeSection_working user sectionId acknowledged w :
  ∃ allProgress ref now1 now2,
    list_find (ownedBy user) allProgress = Some (ref, workingRecord user w)
    ∧ (allProgress = progressFile w
       ∨ list_find (ownedBy user) (progressFile w) = None
         ∧ allProgress = progressFile w ++ [workingRecord user w])
    ∧ (postProgress sectionId acknowledged (loggedIn user) w).1
      = json (ProgressBody
                (acknowledged_record (workingRecord user w) sectionId acknowledged now1 now2))
    ∧ progressFile (postProgress sectionId acknowledged (loggedIn user) w).2
      = <[ref := acknowledged_record (workingRecord user w) sectionId acknowledged now1 now2]>
          allProgress.
Proof.
  destruct (acknowledgeSection_run user sectionId acknowledged w)
    as (allProgress & ref & base & now1 & now2 & Hfind & Hload & Hr & Hfile).
  assert (base = workingRecord user w) as ->.
  { unfold workingRecord. by destruct Hload as [[-> _]|(-> & -> & _)]. }
  exists allProgress, ref, now1, now2. split_and!; [done| |done..].
  destruct Hload as [[_ ->]|(? & _ & ->)]; eauto.
Qed.

(** A read answers with the working record. *)
Lemma getProgress_working user w :
  (getProgress (loggedIn user) w).1 = json (ProgressBody (workingRecord user w)).
Proof.
  unfold workingRecord.
  destruct (list_find (ownedBy user) (progressFile w)) as [[ref p]|] eqn:Hfind.
  - by erewrite getProgress_found.
  - by destruct (getProgress_missing user w Hfind) as [-> _].
Qed.

Lemma workingRecord_owned user w : ownedBy user (workingRecord user w).
Proof.
  unfold workingRecord.
  destruct (list_find (ownedBy user) (progressFile w)) as [[ref p]|] eqn:Hfind; [|done].
  by apply list_find_Some in Hfind as (_ & ? & _).
Qed.

Lemma workingRecord_wellFormed user w :
  Forall wellFormed (progressFile w) → wellFormed (workingRecord user w).
Proof.
  intros Hwf. unfold workingRecord.
  destruct (list_find (ownedBy user) (progressFile w)) as [[ref p]|] eqn:Hfind.
  - apply list_find_Some in Hfind as (Hlook & _). by eapply Forall_lookup_1.
  - apply newProgress_wellFormed.
Qed.

(** The working record of the call after an acknowledgement is the record
    the acknowledgement answered with. *)
Lemma workingRecord_after_acknowledgement user sectionId acknowledged w :
  (postProgress sectionId acknowledged (loggedIn user) w).1
  = json (ProgressBody
            (workingRecord user (postProgress sectionId acknowledged (loggedIn user) w).2)).
Proof.
  destruct (acknowledgeSection_stored user sectionId acknowledged w)
    as (ref & r & -> & Hstored).
  unfold workingRecord. by rewrite Hstored.
Qed.

(** The upsert leaves the entries of the other ids as they are. *)
Lemma upsert_find_other sectionId acknowledged now sections other :
  other ≠ sectionId →
  list_find (hasId other) (upsert sectionId acknowledged now sections)
  = list_find (hasId other) sections.
Proof.
  intros Hne. unfold upsert.
  destruct (list_find (hasId sectionId) sections) as [[i s]|] eqn:Hfind.
  - apply list_find_Some in Hfind as (Hi & (z & -> & Hid)%hasId_inv & _).
    eapply list_find_alter_other; [done|..];
      intros (z' & -> & Hid')%hasId_inv; simpl in *; congruence.
  - apply list_find_push_other. intros (z & -> & Hid)%hasId_inv. simpl in Hid.
    by destruct sectionId; simplify_eq/=.
Qed.

Lemma currentFlag_upsert_other sectionId acknowledged now sections other :
  other ≠ sectionId →
  currentFlag other (upsert sectionId acknowledged now sections) = currentFlag other sections.
Proof. intros Hne. unfold currentFlag. by rewrite upsert_find_other. Qed.

(** X1. isolation. A progress call leaves the record of every user other
    than the caller where and as it was. *)
Theorem progress_calls_leave_other_users_alone c s w other :
  (∀ u, sessionUser s = Some u → i_id u ≠ i_id other) →
  find (ownedBy other) (progressFile (call c s w).2)
  = find (ownedBy other) (progressFile w).
Proof.
  intros Hother. destruct (sessionUser s) as [user|] eqn:Hs.
  - assert (s = loggedIn user) as ->
      by (destruct s as [[?]|]; simpl in Hs; by simplify_eq).
    specialize (Hother user eq_refl).
    assert (∀ p, ownedBy user p → ¬ ownedBy other p) as Hnot
      by (unfold ownedBy; intros p Hp; congruence).
    unfold find. destruct c as [|sectionId acknowledged]; simpl.
    + destruct (list_find (ownedBy user) (progressFile w)) as [[ref p]|] eqn:Hfind.
      * by erewrite getProgress_found.
      * destruct (getProgress_missing user w Hfind) as [_ ->].
        by apply list_find_push_other, Hnot.
    + unfold acknowledgeSection.
      destruct (acknowledgeSection_working user (parseInteger sectionId) acknowledged w)
        as (allProgress & ref & now1 & now2 & Hfind & Hall & _ & ->).
      pose proof (workingRecord_owned user w) as Hown.
      apply list_find_Some in Hfind as (Hlook & _).
      erewrite list_find_insert_other; [|done|by apply Hnot..].
      destruct Hall as [->|[_ ->]]; [done|].
      by apply list_find_push_other, Hnot.
  - by rewrite call_unauthenticated.
Qed.

(** X2. read after write. A read made right after an acknowledgement answers
    with the very record the acknowledgement answered with, and changes
    nothing. *)
Theorem read_after_acknowledgement user sectionId acknowledged w :
  getProgress (loggedIn user) (acknowledgeSection sectionId acknowledged (loggedIn user) w).2
  = ((acknowledgeSection sectionId acknowledged (loggedIn user) w).1,
     (acknowledgeSection sectionId acknowledged (loggedIn user) w).2).
Proof.
  unfold acknowledgeSection.
  destruct (acknowledgeSection_stored user (parseInteger sectionId) acknowledged w)
    as (ref & r & -> & Hstored).
  by erewrite getProgress_found.
Qed.

(** The user ids of the file after a progress call: as before, with the
    caller's id added at the end when the caller had no record. *)
Lemma call_userIds c s w :
  p_userId <$> progressFile (call c s w).2
  = (p_userId <$> progressFile w)
    ++ match sessionUser s with
       | Some user =>
           match list_find (ownedBy user) (progressFile w) with
           | Some _ => []
           | None => [i_id user]
           end
       | None => []
       end.
Proof.
  destruct (sessionUser s) as [user|] eqn:Hs.
  - assert (s = loggedIn user) as ->
      by (destruct s as [[?]|]; simpl in Hs; by simplify_eq).
    destruct c as [|sectionId acknowledged]; simpl.
    + destruct (list_find (ownedBy user) (progressFile w)) as [[ref p]|] eqn:Hfind.
      * erewrite getProgress_found by done. simpl. by rewrite app_nil_r.
      * destruct (getProgress_missing user w Hfind) as [_ ->].
        by rewrite fmap_app.
    + unfold acknowledgeSection.
      destruct (acknowledgeSection_working user (parseInteger sectionId) acknowledged w)
        as (allProgress & ref & now1 & now2 & Hfind & Hall & _ & ->).
      pose proof (workingRecord_owned user w) as Hown.
      pose proof Hfind as (Hlook & _)%list_find_Some.
      rewrite list_fmap_insert. simpl.
      rewrite list_insert_id by (by rewrite list_lookup_fmap, Hlook).
      destruct Hall as [->|[Hnone ->]].
      * by rewrite Hfind, app_nil_r.
      * rewrite Hnone, fmap_app. simpl. by rewrite Hown.
  - rewrite call_unauthenticated by done. simpl. by rewrite app_nil_r.
Qed.

(** X3. one record per user. In every reachable world no two records of the
    progress file carry the same user id. *)
Theorem one_record_per_user w :
  reachable w → NoDup (p_userId <$> progressFile w).
Proof.
  induction 1 as [w Hinit|w s c _ IH|w w' _ IH Hframe].
  - rewrite Hinit. constructor.
  - rewrite call_userIds.
    destruct (sessionUser s) as [user|]; [|by rewrite app_nil_r].
    destruct (list_find (ownedBy user) (progressFile w)) as [[??]|] eqn:Hfind;
      [by rewrite app_nil_r|].
    apply NoDup_app. split_and!; [done| |apply NoDup_singleton].
    intros x (p & -> & Hp)%list_elem_of_fmap Hx%list_elem_of_singleton.
    apply list_find_None in Hfind.
    by apply (proj1 (Forall_forall _ _) Hfind p Hp).
  - by rewrite Hframe.
Qed.

(** X4. bounds. In every reachable world each record has
    [0 <= currentSection <= 6], and [completedSections] between 0 and the
    number of its section entries. *)
Theorem counters_within_bounds w :
  reachable w →
  Forall (λ p, 0 ≤ p_currentSection p ≤ 6
               ∧ 0 ≤ p_completedSections p ≤ Z.of_nat (length (p_sections p)))
         (progressFile w).
Proof.
  intros Hw. eapply Forall_impl; [by apply reachable_wellFormed|].
  intros p [_ Hcount Hcur]. rewrite Hcur, Hcount. unfold countAcknowledged.
  pose proof (length_filter (λ s, s_acknowledged s = true) (p_sections p)). lia.
Qed.

(** X5. the step of the counter. In a reachable world an acknowledgement
    moves [completedSections] by the new flag minus the flag of the entry
    that the id, as JavaScript reads it, finds: up by one, down by one, or
    not at all. *)
Theorem completedSections_step w user sectionId acknowledged before after :
  reachable w →
  (getProgress (loggedIn user) w).1 = json (ProgressBody before) →
  (acknowledgeSection sectionId acknowledged (loggedIn user) w).1 = json (ProgressBody after) →
  p_completedSections after
  = p_completedSections before
    - flag (currentFlag (parseInteger sectionId) (p_sections before)) + flag acknowledged.
Proof.
  intros Hw Hget Hack. unfold acknowledgeSection in Hack.
  destruct (acknowledgeSection_from_read _ _ _ _ _ _ Hget Hack)
    as [Hbefore (now1 & now2 & ->)].
  assert (wellFormed before) as [_ Hcount _].
  { destruct Hbefore as [Hin|[now ->]]; [|apply newProgress_wellFormed].
    by apply (proj1 (Forall_forall _ _) (reachable_wellFormed w Hw)). }
  simpl. by rewrite countAcknowledged_upsert, Hcount.
Qed.

(** X6. the other sections. An acknowledgement leaves the entry of every
    number other than the one its section id is read as, flag and timestamp,
    as a read made in its place would have shown it. *)
Theorem acknowledgement_leaves_other_sections
    w user sectionId acknowledged before after other :
  (getProgress (loggedIn user) w).1 = json (ProgressBody before) →
  (acknowledgeSection sectionId acknowledged (loggedIn user) w).1 = json (ProgressBody after) →
  other ≠ parseInteger sectionId →
  find (hasId other) (p_sections after) = find (hasId other) (p_sections before).
Proof.
  intros Hget Hack Hne. unfold acknowledgeSection in Hack.
  destruct (acknowledgeSection_from_read _ _ _ _ _ _ Hget Hack)
    as [_ (now1 & now2 & ->)].
  simpl. by apply upsert_find_other.
Qed.

Lemma currentFlag_upsert_same sectionId acknowledged now sections :
  currentFlag sectionId (upsert sectionId acknowledged now sections)
  = match sectionId with Finite _ => acknowledged | Infinity _ => false end.
Proof.
  unfold currentFlag. destruct sectionId as [z|negative].
  - destruct (upsert_find z acknowledged now sections) as (i & s & -> & Hflag). done.
  - by rewrite list_find_infinity.
Qed.

(** Two acknowledgements in a row, in terms of the record the first works
    on. *)
Lemma acknowledgeSection_twice user a x b y w :
  ∃ t1 t1' t2 t2',
    (postProgress b y (loggedIn user)
       (postProgress a x (loggedIn user) w).2).1
    = json (ProgressBody
              (acknowledged_record
                 (acknowledged_record (workingRecord user w) a x t1 t1') b y t2 t2')).
Proof.
  destruct (acknowledgeSection_working user a x w)
    as (_ & _ & t1 & t1' & _ & _ & Hr1 & _).
  pose proof (workingRecord_after_acknowledgement user a x w) as Hw1.
  rewrite Hr1 in Hw1. injection Hw1 as Hw1.
  destruct (acknowledgeSection_working user b y (postProgress a x (loggedIn user) w).2)
    as (_ & _ & t2 & t2' & _ & _ & Hr2 & _).
  rewrite <-Hw1 in Hr2. by exists t1, t1', t2, t2'.
Qed.

(** X7. order. Acknowledging two sections whose ids are read as different
    numbers, one after the other, gives the same counters and the same flag
    for every number, whichever of the two comes first. *)
Theorem acknowledgement_order_is_irrelevant w user a x b y :
  parseInteger a ≠ parseInteger b →
  ∃ ab ba,
    (acknowledgeSection b y (loggedIn user)
       (acknowledgeSection a x (loggedIn user) w).2).1 = json (ProgressBody ab)
    ∧ (acknowledgeSection a x (loggedIn user)
         (acknowledgeSection b y (loggedIn user) w).2).1 = json (ProgressBody ba)
    ∧ p_completedSections ab = p_completedSections ba
    ∧ p_currentSection ab = p_currentSection ba
    ∧ ∀ sectionId,
        currentFlag sectionId (p_sections ab) = currentFlag sectionId (p_sections ba).
Proof.
  intros Hne. unfold acknowledgeSection.
  set (na := parseInteger a) in *. set (nb := parseInteger b) in *.
  destruct (acknowledgeSection_twice user na x nb y w) as (t1 & t1' & t2 & t2' & Hab).
  destruct (acknowledgeSection_twice user nb y na x w) as (u1 & u1' & u2 & u2' & Hba).
  eexists _, _. split; [exact Hab|]. split; [exact Hba|].
  assert (∀ l,
    countAcknowledged (upsert nb y t2 (upsert na x t1 l))
    = countAcknowledged (upsert na x u2 (upsert nb y u1 l))) as Hcount.
  { intros l. rewrite !countAcknowledged_upsert.
    rewrite !currentFlag_upsert_other by done. lia. }
  simpl. rewrite Hcount. split_and!; [done..|].
  intros sectionId.
  destruct (decide (sectionId = na)) as [->|Ha].
  - by rewrite currentFlag_upsert_other, !currentFlag_upsert_same.
  - destruct (decide (sectionId = nb)) as [->|Hb].
    + by rewrite currentFlag_upsert_same, currentFlag_upsert_other, currentFlag_upsert_same.
    + by rewrite !currentFlag_upsert_other.
Qed.

(** The whole world after an acknowledgement: only the progress file and
    the number of clock readings change; [n] is the reading at which the
    section is stamped. *)
Lemma acknowledgeSection_world user sectionId acknowledged w :
  ∃ allProgress ref,
    let n := match list_find (ownedBy user) (progressFile w) with
             | Some _ => ticks w
             | None => S (ticks w)
             end in
    let r := acknowledged_record (workingRecord user w) sectionId acknowledged
                                 (clock w n) (clock w (S n)) in
    postProgress sectionId acknowledged (loggedIn user) w
    = (json (ProgressBody r),
       mkWorld (usersFile w) (<[ref := r]> allProgress) (clock w) (S (S n))
               (entropy w) (draws w)).
Proof.
  unfold postProgress, route, isAuthenticated, postProgressHandler, withUser; simpl.
  unfold mbind, M_bind, readProgress, find, workingRecord; simpl.
  destruct (list_find (ownedBy user) (progressFile w)) as [[ref base]|] eqn:Hfind; simpl.
  - rewrite updateSection_run; simpl.
    exists (progressFile w), ref.
    assert (ownedBy user base) as Hown by by apply list_find_Some in Hfind as (_ & ? & _).
    erewrite findIndex_found by (by eapply list_find_replace).
    rewrite decide_True by lia. rewrite Nat2Z.id, list_insert_insert_eq.
    done.
  - set (base := newProgress user (clock w (ticks w))).
    assert (list_find (ownedBy user) (progressFile w ++ [base])
            = Some (length (progressFile w), base)) as Hpush
      by by apply list_find_push.
    exists (progressFile w ++ [base]), (length (progressFile w)).
    erewrite findIndex_found by (by eapply list_find_replace).
    rewrite decide_True by lia. rewrite Nat2Z.id, list_insert_insert_eq.
    done.
Qed.

(** X8. timestamps. An acknowledgement stamps the entry it sets or adds,
    which carries the section id as JavaScript read and wrote it, with the
    clock reading it takes for it, whether the flag is set or cleared, and
    the record with the next reading; the clock itself, the users file and
    the salts are as before. *)
Theorem acknowledgement_stamps_section_and_record user sectionId acknowledged w :
  ∃ n i r s,
    acknowledgeSection sectionId acknowledged (loggedIn user) w
    = (json (ProgressBody r),
       mkWorld (usersFile w)
               (progressFile (acknowledgeSection sectionId acknowledged (loggedIn user) w).2)
               (clock w) (S (S n)) (entropy w) (draws w))
    ∧ (ticks w ≤ n ≤ S (ticks w))%nat
    ∧ p_sections r !! i = Some s
    ∧ s_id s = stringifyNumber (parseInteger sectionId)
    ∧ s_acknowledged s = acknowledged
    ∧ s_completedAt s = clock w n
    ∧ p_lastUpdated r = clock w (S n).
Proof.
  unfold acknowledgeSection.
  destruct (acknowledgeSection_world user (parseInteger sectionId) acknowledged w)
    as (allProgress & ref & Hrun).
  simpl in Hrun. rewrite Hrun. simpl.
  set (n := match list_find (ownedBy user) (progressFile w) with
            | Some _ => ticks w
            | None => S (ticks w)
            end) in *.
  assert (ticks w ≤ n ≤ S (ticks w))%nat as Hn
    by (subst n; destruct (list_find _ _); lia).
  destruct (upsert_entry (parseInteger sectionId) acknowledged (clock w n)
              (p_sections (workingRecord user w)))
    as (i & s & Hs & Hid & Hflag & Hstamp).
  exists n, i. eexists _, s. split_and!; [reflexivity|lia|lia|exact Hs|done..].
Qed.

(** X9. the accounts stay out of it. No progress call, by whatever session,
    changes the users file or draws a salt. *)
Theorem progress_calls_leave_accounts_alone c s w :
  usersFile (call c s w).2 = usersFile w
  ∧ entropy (call c s w).2 = entropy w
  ∧ draws (call c s w).2 = draws w.
Proof.
  destruct (sessionUser s) as [user|] eqn:Hs.
  - assert (s = loggedIn user) as ->
      by (destruct s as [[?]|]; simpl in Hs; by simplify_eq).
    destruct c as [|sectionId acknowledged]; simpl.
    + unfold getProgress, route, isAuthenticated, getProgressHandler, withUser; simpl.
      unfold mbind, M_bind, readProgress, find; simpl.
      by destruct (list_find (ownedBy user) (progressFile w)) as [[??]|].
    + unfold acknowledgeSection.
      destruct (acknowledgeSection_world user (parseInteger sectionId) acknowledged w)
        as (allProgress & ref & Hrun).
      simpl in Hrun. by rewrite Hrun.
  - by rewrite call_unauthenticated.
Qed.

(** X10. entries are only added. An acknowledgement keeps the ids of the
    record's entries in their order. When the section id is read as a
    number that no entry carries, that number is added at the end; when it
    is beyond the range of doubles, [null] is added at the end; otherwise
    the ids are the same. *)
Theorem acknowledgement_keeps_section_order w user sectionId acknowledged before after :
  (getProgress (loggedIn user) w).1 = json (ProgressBody before) →
  (acknowledgeSection sectionId acknowledged (loggedIn user) w).1 = json (ProgressBody after) →
  s_id <$> p_sections after
  = (s_id <$> p_sections before)
    ++ match parseInteger sectionId with
       | Finite z => if decide (IdNum z ∈ s_id <$> p_sections before) then [] else [IdNum z]
       | Infinity _ => [IdNull]
       end.
Proof.
  intros Hget Hack. unfold acknowledgeSection in Hack.
  destruct (acknowledgeSection_from_read _ _ _ _ _ _ Hget Hack)
    as [_ (now1 & now2 & ->)].
  simpl. rewrite upsert_ids.
  destruct (parseInteger sectionId) as [z|negative]; [|by rewrite list_find_infinity].
  destruct (list_find (hasId (Finite z)) (p_sections before)) as [[i s]|] eqn:Hfind.
  - apply list_find_Some in Hfind as (Hlook & (z' & [= <-] & Hid)%hasId_inv & _).
    rewrite decide_True, app_nil_r; [done|].
    apply list_elem_of_fmap. exists s. split; [done|]. by eapply list_elem_of_lookup_2.
  - rewrite decide_False; [done|].
    intros (s & Hid & Hs)%list_elem_of_fmap.
    apply list_find_None in Hfind.
    apply (proj1 (Forall_forall _ _) Hfind s Hs). apply hasId_inv. eauto.
Qed.

(** * Further properties of the gate and the accounts *)

(** X11. no user, no service. With no user in the session, every gated route
    and the session check answer 401 "Not authenticated" and leave the world
    as it is. *)
Theorem routes_reject_missing_user
    (hashSync : string → Z → string → string) s w :
  sessionUser s = None →
  getSession s w = (mkResponse 401 (ErrorBody "Not authenticated"), w)
  ∧ getProgress s w = (mkResponse 401 (ErrorBody "Not authenticated"), w)
  ∧ (∀ sectionId acknowledged,
       acknowledgeSection sectionId acknowledged s w
       = (mkResponse 401 (ErrorBody "Not authenticated"), w))
  ∧ listAllProgress s w = (mkResponse 401 (ErrorBody "Not authenticated"), w)
  ∧ listUsers s w = (mkResponse 401 (ErrorBody "Not authenticated"), w)
  ∧ (∀ email password name,
       createUser hashSync email password name s w
       = (mkResponse 401 (ErrorBody "Not authenticated"), w)).
Proof.
  intros Hs.
  split_and!; intros;
    unfold getSession, getProgress, acknowledgeSection, postProgress, listAllProgress,
      listUsers, createUser, route, isAuthenticated;
    by rewrite Hs.
Qed.

(** X12. staff are kept out. For a logged-in user whose role is not
    ['admin'], the three admin routes answer 403 "Admin access required" and
    leave the world as it is. *)
Theorem admin_routes_reject_other_roles
    (hashSync : string → Z → string → string) s w user :
  sessionUser s = Some user → i_role user ≠ "admin" →
  listAllProgress s w = (mkResponse 403 (ErrorBody "Admin access required"), w)
  ∧ listUsers s w = (mkResponse 403 (ErrorBody "Admin access required"), w)
  ∧ (∀ email password name,
       createUser hashSync email password name s w
       = (mkResponse 403 (ErrorBody "Admin access required"), w)).
Proof.
  intros Hs Hrole.
  split_and!; intros; unfold listAllProgress, listUsers, createUser;
    rewrite admin_route_gate, Hs; by rewrite decide_False.
Qed.

(** X13. a successful login. When the stored user found under the email has a
    hash the password matches, the answer and the session carry that user's
    id, email, name and role; the session then passes [isAuthenticated], the
    session check shows the same identity, and [isAdmin] lets it through
    exactly when the stored role is ['admin']. *)
Theorem login_establishes_session
    (compareSync : string → string → bool) w d email password ref user :
  find (hasEmail email) (usersFile w) = Some (ref, user) →
  compareSync password (u_password user) = true →
  login compareSync email password (Some d) w
    = (mkResponse 200 (LoginBody (identityOf user)), loggedIn (identityOf user), w)
  ∧ identityOf user = mkIdentity (u_id user) (u_email user) (u_name user) (u_role user)
  ∧ isAuthenticated (loggedIn (identityOf user)) = Next
  ∧ getSession (loggedIn (identityOf user)) w
    = (mkResponse 200 (SessionBody (identityOf user)), w)
  ∧ (isAdmin (loggedIn (identityOf user)) = Next ↔ u_role user = "admin").
Proof.
  intros Hfind Hmatch. split_and!; [|done..|].
  - unfold login, mbind, M_bind, readUsers, find in *; simpl.
    by rewrite Hfind, Hmatch.
  - unfold isAdmin; simpl. by destruct (decide (u_role user = "admin")).
Qed.

(** X14. logout. Whatever the session was, after a logout it holds no user:
    the session check answers 401 and no gated route is open to it; the
    world is untouched. *)
Theorem logout_ends_session s w :
  (logout s w).2 = w
  ∧ sessionUser (logout s w).1.2 = None
  ∧ isAuthenticated (logout s w).1.2
    = Respond (mkResponse 401 (ErrorBody "Not authenticated"))
  ∧ getSession (logout s w).1.2 w = (mkResponse 401 (ErrorBody "Not authenticated"), w).
Proof. by destruct s as [d|]. Qed.

(** The largest id in use, as [Math.max] finds it. *)
Lemma max_id_bounds users :
  0 ≤ foldr Z.max 0 (u_id <$> users)
  ∧ Forall (λ u, u_id u ≤ foldr Z.max 0 (u_id <$> users)) users.
Proof.
  induction users as [|u users [IH1 IH2]]; csimpl.
  - split; [lia|constructor].
  - split; [lia|]. constructor; [lia|].
    eapply Forall_impl; [exact IH2|]. intros u' Hu'. simpl in Hu'. lia.
Qed.

Lemma max_id_below bound users :
  0 < bound → Forall (λ u, u_id u < bound) users →
  foldr Z.max 0 (u_id <$> users) < bound.
Proof.
  intros Hbound. induction 1 as [|u users Hu _ IH]; csimpl; lia.
Qed.

(** While the ids in use are below 2^53 the sum is exact: the next id is
    above every id in use, and at least 1. *)
Lemma nextUserId_fresh users :
  Forall (λ u, u_id u < 2 ^ 53) users →
  1 ≤ nextUserId users ∧ Forall (λ u, u_id u < nextUserId users) users.
Proof.
  intros Hsafe. unfold nextUserId.
  destruct (max_id_bounds users) as [Hmin Hmax].
  pose proof (max_id_below (2 ^ 53) users ltac:(lia) Hsafe) as Hbelow.
  rewrite roundInteger_exact by lia.
  split; [lia|]. eapply Forall_impl; [exact Hmax|]. intros u Hu. simpl in Hu. lia.
Qed.

(** At 2^53 it is not: 2^53 + 1 is no double, and the sum is 2^53 again. *)
Lemma nextUserId_at_2_53 u :
  u_id u = 2 ^ 53 → nextUserId [u] = u_id u.
Proof. intros Hu. unfold nextUserId. csimpl. rewrite Hu. by vm_compute. Qed.

(** The handler behind the admin gate, case by case. *)
Lemma createUser_run (hashSync : string → Z → string → string)
    email password name s w :
  isAdmin s = Next →
  createUser hashSync email password name s w
  = match list_find (hasEmail email) (usersFile w) with
    | Some _ => (statusJson 400 (ErrorBody "User already exists"), w)
    | None =>
        (json (CreatedBody (nextUserId (usersFile w)) email name),
         mkWorld (usersFile w
                  ++ [mkUser (nextUserId (usersFile w)) email
                             (hashSync password 10 (entropy w (draws w))) name "staff"])
                 (progressFile w) (clock w) (ticks w) (entropy w) (S (draws w)))
    end.
Proof.
  intros Hadmin. unfold createUser. rewrite admin_route_gate.
  unfold isAdmin in Hadmin. destruct (sessionUser s) as [a|]; [|done].
  destruct (decide (i_role a = "admin")); [|done].
  unfold mbind, M_bind, readUsers, find; simpl.
  by destruct (list_find (hasEmail email) (usersFile w)) as [[??]|].
Qed.


(** X15. a new account. For an admin and an email no stored user has, the
    answer is 200 with the new id, email and name; the users file is the old
    one followed by the new user, whose role is ['staff'] and whose password
    is the hash; the progress file is untouched. The new id is the largest
    id in use (or 0) plus 1 in double arithmetic: while the ids in use are
    below 2^53 it is at least 1 and above every one of them. *)
Theorem createUser_appends_staff
    (hashSync : string → Z → string → string) w s email password name :
  isAdmin s = Next →
  Forall (λ u, u_email u ≠ email) (usersFile w) →
  (createUser hashSync email password name s w).1
    = mkResponse 200 (CreatedBody (nextUserId (usersFile w)) email name)
  ∧ usersFile (createUser hashSync email password name s w).2
    = usersFile w
      ++ [mkUser (nextUserId (usersFile w)) email
                 (hashSync password 10 (entropy w (draws w))) name "staff"]
  ∧ progressFile (createUser hashSync email password name s w).2 = progressFile w
  ∧ nextUserId (usersFile w) = roundInteger (foldr Z.max 0 (u_id <$> usersFile w) + 1)
  ∧ (Forall (λ u, u_id u < 2 ^ 53) (usersFile w) →
     1 ≤ nextUserId (usersFile w)
     ∧ Forall (λ u, u_id u < nextUserId (usersFile w)) (usersFile w)).
Proof.
  intros Hadmin Hnew%(list_find_None (hasEmail email)).
  rewrite createUser_run, Hnew by done. simpl.
  split_and!; [done..|]. apply nextUserId_fresh.
Qed.


(** X17. create, then log in. When bcrypt accepts a password against the hash
    it made of it, the account an admin created under a new email can log in
    with that password, and is logged in as staff under the new id. *)
Theorem created_user_can_log_in
    (compareSync : string → string → bool) (hashSync : string → Z → string → string)
    w s d email password name :
  isAdmin s = Next →
  Forall (λ u, u_email u ≠ email) (usersFile w) →
  compareSync password (hashSync password 10 (entropy w (draws w))) = true →
  login compareSync email password (Some d)
        (createUser hashSync email password name s w).2
  = (mkResponse 200 (LoginBody (mkIdentity (nextUserId (usersFile w)) email name "staff")),
     loggedIn (mkIdentity (nextUserId (usersFile w)) email name "staff"),
     (createUser hashSync email password name s w).2).
Proof.
  intros Hadmin Hnew%(list_find_None (hasEmail email)) Hbcrypt.
  rewrite createUser_run, Hnew by done. simpl.
  unfold login, mbind, M_bind, readUsers, find; simpl.
  erewrite list_find_push by done. simpl. by rewrite Hbcrypt.
Qed.

(** X18. the same email twice. Whatever the users file held, once an admin
    has asked for an account under an email, asking again under that email
    is answered 400 "User already exists" and changes nothing. *)
Theorem createUser_second_time_rejected
    (hashSync : string → Z → string → string) w s email password name password' name' :
  isAdmin s = Next →
  createUser hashSync email password' name' s
             (createUser hashSync email password name s w).2
  = (mkResponse 400 (ErrorBody "User already exists"),
     (createUser hashSync email password name s w).2).
Proof.
  intros Hadmin. rewrite (createUser_run _ email password name) by done.
  destruct (list_find (hasEmail email) (usersFile w)) as [[i u]|] eqn:Hfind; simpl.
  - by rewrite createUser_run, Hfind.
  - rewrite createUser_run by done. simpl. by erewrite list_find_push.
Qed.

(** X19. the admin's progress list. For an admin the answer lists the records
    of the progress file in file order, each with its user id, sections,
    current section, count and last update as stored, and with [userName]
    and [userEmail] set to the name and email of the first stored user with
    the record's user id, or to "Unknown" twice when no stored user has that
    id; the name stored in the record is not shown. Nothing is written. *)
Theorem listAllProgress_enriches_every_record s w :
  isAdmin s = Next →
  ∃ l,
    listAllProgress s w = (mkResponse 200 (AdminProgressBody l), w)
    ∧ Forall2 (λ p e,
        p_userId (e_progress e) = p_userId p
        ∧ p_sections (e_progress e) = p_sections p
        ∧ p_currentSection (e_progress e) = p_currentSection p
        ∧ p_completedSections (e_progress e) = p_completedSections p
        ∧ p_lastUpdated (e_progress e) = p_lastUpdated p
        ∧ ((∃ i u, usersFile w !! i = Some u ∧ u_id u = p_userId p
                   ∧ (∀ j u', usersFile w !! j = Some u' → u_id u' = p_userId p → (i ≤ j)%nat)
                   ∧ p_userName (e_progress e) = u_name u ∧ e_userEmail e = u_email u)
           ∨ (Forall (λ u, u_id u ≠ p_userId p) (usersFile w)
              ∧ p_userName (e_progress e) = "Unknown" ∧ e_userEmail e = "Unknown")))
        (progressFile w) l.
Proof.
  intros Hadmin. exists (enrich (usersFile w) <$> progressFile w).
  split.
  - unfold listAllProgress. rewrite admin_route_gate.
    unfold isAdmin in Hadmin. destruct (sessionUser s) as [a|]; [|done].
    by destruct (decide (i_role a = "admin")).
  - apply Forall2_fmap_r, Forall_Forall2_diag, Forall_forall. intros p _.
    unfold enrich, find. simpl. split_and!; [done..|].
    destruct (list_find (hasUserId (p_userId p)) (usersFile w)) as [[i u]|] eqn:Hfind.
    + left. apply list_find_Some in Hfind as (Hlook & Hid & Hfirst).
      exists i, u. split_and!; [done..| |done|done].
      intros j u' Hj Hu'. destruct (decide (i ≤ j)%nat) as [|Hlt]; [done|].
      exfalso. apply (Hfirst j u' Hj); [lia|done].
    + right. by apply list_find_None in Hfind.
Qed.

(** * Properties of the data files at start *)

(** X20. [initializeDataFiles] creates what is missing and nothing else. A
    file that exists is kept as it is; a missing users file becomes the two
    default accounts, a missing progress file the empty array; and running
    it again, with whatever salts, changes nothing. *)
Theorem initializeDataFiles_creates_only_missing
    (hashSync : string → Z → string → string) salt1 salt2 d :
  usersJson (initializeDataFiles hashSync salt1 salt2 d)
    = Some (default
              [ mkUser 1 "admin@maytech.com" (hashSync "admin123" 10 salt1) "Admin User" "admin";
                mkUser 2 "staff@maytech.com" (hashSync "staff123" 10 salt2) "Demo Staff" "staff" ]
              (usersJson d))
  ∧ progressJson (initializeDataFiles hashSync salt1 salt2 d)
    = Some (default [] (progressJson d))
  ∧ ∀ salt3 salt4,
      initializeDataFiles hashSync salt3 salt4 (initializeDataFiles hashSync salt1 salt2 d)
      = initializeDataFiles hashSync salt1 salt2 d.
Proof.
  destruct d as [[users|] [progress|]]; by split_and!.
Qed.

(** * Properties of the page scripts *)

Lemma showSection_fields sectionIndex pg :
  pg_currentSection (showSection sectionIndex pg) = sectionIndex
  ∧ pg_userProgress (showSection sectionIndex pg) = pg_userProgress pg
  ∧ pg_prevDisabled (showSection sectionIndex pg) = bool_decide (sectionIndex = 0)
  ∧ pg_nextDisabled (showSection sectionIndex pg)
    = negb (isSectionAcknowledged (pg_userProgress pg) sectionIndex
            || bool_decide (sectionIndex = totalSections - 1))
      || negb (bool_decide (sectionIndex < totalSections - 1)).
Proof.
  unfold showSection, updateAcknowledgmentArea, updateNavigationButtons. simpl.
  destruct (decide (sectionIndex = totalSections - 1)); [done|].
  by destruct (isSectionAcknowledged _ _).
Qed.

(** X21. the buttons tell the truth. On a page as [showSection] leaves it, a
    click on "next" moves one section on exactly when the button is enabled,
    and does nothing when it is disabled; from section 0 upwards the same
    holds of "previous". *)
Theorem navigation_buttons_match_listeners s sectionIndex pg w :
  pageEvent s NextClick (showSection sectionIndex pg) w
  = ((if pg_nextDisabled (showSection sectionIndex pg)
      then showSection sectionIndex pg
      else showSection (sectionIndex + 1) (showSection sectionIndex pg)), w)
  ∧ (0 ≤ sectionIndex →
     pageEvent s PrevClick (showSection sectionIndex pg) w
     = ((if pg_prevDisabled (showSection sectionIndex pg)
         then showSection sectionIndex pg
         else showSection (sectionIndex - 1) (showSection sectionIndex pg)), w)).
Proof.
  destruct (showSection_fields sectionIndex pg) as (Hcur & Hup & Hprev & Hnext).
  split.
  - unfold pageEvent. rewrite Hnext, Hcur, Hup. unfold totalSections.
    destruct (isSectionAcknowledged (pg_userProgress pg) sectionIndex);
      repeat case_bool_decide; simpl; try reflexivity; exfalso; lia.
  - intros Hpos. unfold pageEvent. rewrite Hprev, Hcur.
    destruct (decide (sectionIndex = 0)) as [->|Hne].
    + done.
    + rewrite bool_decide_eq_false_2, decide_True by lia. done.
Qed.

(** X22. the page stays on a section. Whatever happens on the page, the
    section it is on stays between 0 and 6 once it is. *)
Theorem pageEvent_keeps_section_in_range s e pg w :
  0 ≤ pg_currentSection pg ≤ 6 →
  0 ≤ pg_currentSection (pageEvent s e pg w).1 ≤ 6.
Proof.
  intros Hrange. destruct e as [checked| | | | |index]; simpl.
  - done.
  - destruct (pg_checked pg); simpl; [|done].
    unfold saveProgress, mbind, M_bind. simpl.
    destruct (postProgress _ _ _ _) as [response w1]. simpl.
    by destruct (ok response).
  - case_decide; simpl; [|done].
    destruct (showSection_fields (pg_currentSection pg + 1) pg) as (-> & _).
    unfold totalSections in *. lia.
  - case_decide; simpl; [|done].
    destruct (showSection_fields (pg_currentSection pg - 1) pg) as (-> & _). lia.
  - destruct (_ && _) eqn:Hguard; simpl; [|done].
    apply andb_prop in Hguard as [Hlt%bool_decide_eq_true _].
    destruct (showSection_fields (pg_currentSection pg + 1) pg) as (-> & _).
    unfold totalSections in *. lia.
  - case_decide; simpl; [|done].
    destruct (showSection_fields (Z.of_nat index) pg) as (-> & _). lia.
Qed.

(** X23. an acknowledgement on the page. With the box ticked and a user
    logged in, a click on the acknowledge button stores the current section
    as acknowledged: the page holds the caller's record as the server now
    has it, [isSectionAcknowledged] is true of the current section, and the
    page is still on that section with the button disabled. *)
Theorem acknowledge_click_is_recorded user pg w :
  pg_checked pg = true →
  ∃ ref r,
    (pageEvent (loggedIn user) AcknowledgeClick pg w).1
    = mkPage (pg_currentSection pg) (Some r) (pg_prevDisabled pg) (pg_nextDisabled pg)
             true true
    ∧ list_find (ownedBy user)
        (progressFile (pageEvent (loggedIn user) AcknowledgeClick pg w).2) = Some (ref, r)
    ∧ isSectionAcknowledged (Some r) (pg_currentSection pg) = true.
Proof.
  intros Hchecked. unfold pageEvent. rewrite Hchecked. simpl.
  unfold saveProgress, mbind, M_bind. simpl.
  destruct (acknowledgeSection_working user (Finite (pg_currentSection pg)) true w)
    as (allProgress & ref & now1 & now2 & Hfind & _ & Hr & Hfile).
  destruct (postProgress (Finite (pg_currentSection pg)) true (loggedIn user) w)
    as [response w1]. simpl in *. subst response. simpl.
  eexists ref, _. split_and!; [done| |].
  - rewrite Hfile. eapply list_find_replace; [done|]. apply workingRecord_owned.
  - simpl. unfold find.
    destruct (upsert_find (pg_currentSection pg) true now1
                (p_sections (workingRecord user w))) as (i & sec & -> & Hflag).
    done.
Qed.

(** X24. where [init] lands. Without a user the browser is sent to the login
    page, an admin to the admin page, in both cases with nothing written. A
    staff member lands on the onboarding page holding their record; in a
    reachable world the section shown is [min(completedSections, 6)], so
    between 0 and 6. *)
Theorem init_lands_on_progress s html w :
  match sessionUser s with
  | None => init s html w = (Redirect "/", w)
  | Some user =>
      if decide (i_role user = "admin") then init s html w = (Redirect "/admin", w)
      else
        ∃ pg, (init s html w).1 = Shown pg
              ∧ pg_userProgress pg = Some (workingRecord user w)
              ∧ pg_currentSection pg = p_currentSection (workingRecord user w)
              ∧ (reachable w →
                 pg_currentSection pg
                 = Z.min (p_completedSections (workingRecord user w)) 6
                 ∧ 0 ≤ pg_currentSection pg ≤ 6)
  end.
Proof.
  destruct (sessionUser s) as [user|] eqn:Hs.
  - assert (s = loggedIn user) as ->
      by (destruct s as [[?]|]; simpl in Hs; by simplify_eq).
    unfold init, getSession, mbind, M_bind. simpl.
    destruct (decide (i_role user = "admin")); [done|].
    unfold loadProgress, mbind, M_bind.
    pose proof (getProgress_working user w) as Hget.
    destruct (getProgress (loggedIn user) w) as [response w1]. simpl in Hget.
    subst response. set (wr := workingRecord user w).
    assert (ok (json (ProgressBody wr)) = true) as -> by done.
    unfold progressOf. simpl.
    assert ((if decide (p_currentSection wr = 0) then 0 else p_currentSection wr)
            = p_currentSection wr) as -> by (by case_decide).
    destruct (showSection_fields (p_currentSection wr)
                (mkPage (p_currentSection wr) (Some wr) (pg_prevDisabled html)
                        (pg_nextDisabled html) (pg_checked html) (pg_ackDisabled html)))
      as (Hcur & Hup & _).
    eexists. split; [reflexivity|]. rewrite Hcur, Hup. simpl.
    split_and!; [done..|]. intros Hw.
    destruct (workingRecord_wellFormed user w (reachable_wellFormed w Hw))
      as [_ Hcount Hcurrent].
    fold wr in Hcount, Hcurrent.
    rewrite Hcurrent. split; [done|]. rewrite Hcount. unfold countAcknowledged. lia.
  - unfold init, getSession, mbind, M_bind. by rewrite Hs.
Qed.

(** The counters while [renderStats] goes through the staff. *)
Lemma countUser_foldl allProgress users st :
  let st' := foldl (countUser allProgress) st users in
  totalStaff st' = totalStaff st
  ∧ completed st' + inProgress st' + notStarted st'
    = completed st + inProgress st + notStarted st + Z.of_nat (length users)
  ∧ completed st ≤ completed st'
  ∧ inProgress st ≤ inProgress st'
  ∧ notStarted st ≤ notStarted st'.
Proof.
  revert st. induction users as [|user users IH]; intros st; simpl.
  - split_and!; lia.
  - destruct (IH (countUser allProgress st user)) as (Htotal & Hsum & Hc & Hi & Hn).
    assert (totalStaff (countUser allProgress st user) = totalStaff st
            ∧ completed (countUser allProgress st user)
              + inProgress (countUser allProgress st user)
              + notStarted (countUser allProgress st user)
              = completed st + inProgress st + notStarted st + 1
            ∧ completed st ≤ completed (countUser allProgress st user)
            ∧ inProgress st ≤ inProgress (countUser allProgress st user)
            ∧ notStarted st ≤ notStarted (countUser allProgress st user))
      as (Ht1 & Hs1 & Hc1 & Hi1 & Hn1).
    { unfold countUser. destruct (find _ _) as [[i p]|]; simpl; [|split_and!; lia].
      repeat case_decide; simpl; split_and!; lia. }
    split_and!; lia.
Qed.

(** X25. the dashboard counters. The three status counters [renderStats]
    shows are non-negative and add up to the total it shows, which is the
    number of users with role ['staff']; with no progress records at all,
    every staff member counts as not started. *)
Theorem renderStats_counts_every_staff_once allUsers allProgress :
  totalStaff (renderStats allUsers allProgress)
    = Z.of_nat (length (filter (λ u, i_role u = "staff") allUsers))
  ∧ completed (renderStats allUsers allProgress)
    + inProgress (renderStats allUsers allProgress)
    + notStarted (renderStats allUsers allProgress)
    = totalStaff (renderStats allUsers allProgress)
  ∧ 0 ≤ completed (renderStats allUsers allProgress)
  ∧ 0 ≤ inProgress (renderStats allUsers allProgress)
  ∧ 0 ≤ notStarted (renderStats allUsers allProgress)
  ∧ notStarted (renderStats allUsers []) = totalStaff (renderStats allUsers []).
Proof.
  unfold renderStats.
  set (staffUsers := filter (λ u, i_role u = "staff") allUsers).
  destruct (countUser_foldl allProgress staffUsers
              (mkStats (Z.of_nat (length staffUsers)) 0 0 0))
    as (Htotal & Hsum & Hc & Hi & Hn). simpl in *.
  split_and!; [lia..|].
  destruct (countUser_foldl [] staffUsers
              (mkStats (Z.of_nat (length staffUsers)) 0 0 0))
    as (Htotal' & Hsum' & _). simpl in *.
  assert (∀ st, completed (foldl (countUser []) st staffUsers) = completed st
               ∧ inProgress (foldl (countUser []) st staffUsers) = inProgress st) as Hzero.
  { clear. induction staffUsers as [|u l IH]; intros st; simpl; [done|].
    destruct (IH (countUser [] st u)) as [-> ->]. done. }
  destruct (Hzero (mkStats (Z.of_nat (length staffUsers)) 0 0 0)) as [Hc0 Hi0].
  simpl in *. lia.
Qed.

(** * Instances of the further properties that have hypotheses *)

Lemma progress_calls_leave_other_users_alone_day1 :
  (∀ u, sessionUser (loggedIn admin) = Some u → i_id u ≠ i_id alice)
  ∧ find (ownedBy alice)
      (progressFile (call (AcknowledgeSection 1 true) (loggedIn admin) day1).2)
    = find (ownedBy alice) (progressFile day1).
Proof.
  assert (∀ u, sessionUser (loggedIn admin) = Some u → i_id u ≠ i_id alice) as Hother
    by (intros u [= <-]; simpl; lia).
  split; [exact Hother|].
  exact (progress_calls_leave_other_users_alone
           (AcknowledgeSection 1 true) (loggedIn admin) day1 alice Hother).
Defined.

Lemma one_record_per_user_day1 :
  reachable day1 ∧ NoDup (p_userId <$> progressFile day1).
Proof.
  split; [exact day1_reachable|].
  exact (one_record_per_user day1 day1_reachable).
Defined.

Lemma counters_within_bounds_day1 :
  reachable day1
  ∧ Forall (λ p, 0 ≤ p_currentSection p ≤ 6
                 ∧ 0 ≤ p_completedSections p ≤ Z.of_nat (length (p_sections p)))
           (progressFile day1).
Proof.
  split; [exact day1_reachable|].
  exact (counters_within_bounds day1 day1_reachable).
Defined.

Lemma completedSections_step_day1 :
  reachable day1
  ∧ (getProgress (loggedIn alice) day1).1 = json (ProgressBody day1Record)
  ∧ (acknowledgeSection 1 true (loggedIn alice) day1).1 = json (ProgressBody day1Second)
  ∧ p_completedSections day1Second
    = p_completedSections day1Record
      - flag (currentFlag (parseInteger 1) (p_sections day1Record)) + flag true.
Proof.
  assert ((getProgress (loggedIn alice) day1).1 = json (ProgressBody day1Record)) as Hget
    by (vm_compute; reflexivity).
  assert ((acknowledgeSection 1 true (loggedIn alice) day1).1
          = json (ProgressBody day1Second)) as Hack by (vm_compute; reflexivity).
  split_and!; [exact day1_reachable|exact Hget|exact Hack|].
  exact (completedSections_step day1 alice 1 true day1Record day1Second
           day1_reachable Hget Hack).
Defined.

Lemma acknowledgement_leaves_other_sections_day1 :
  (getProgress (loggedIn alice) day1).1 = json (ProgressBody day1Record)
  ∧ (acknowledgeSection 1 true (loggedIn alice) day1).1 = json (ProgressBody day1Second)
  ∧ Finite 0 ≠ parseInteger 1
  ∧ find (hasId (Finite 0)) (p_sections day1Second)
    = find (hasId (Finite 0)) (p_sections day1Record).
Proof.
  assert ((getProgress (loggedIn alice) day1).1 = json (ProgressBody day1Record)) as Hget
    by (vm_compute; reflexivity).
  assert ((acknowledgeSection 1 true (loggedIn alice) day1).1
          = json (ProgressBody day1Second)) as Hack by (vm_compute; reflexivity).
  assert (Finite 0 ≠ parseInteger 1) as Hne by (vm_compute; discriminate).
  split_and!; [exact Hget|exact Hack|exact Hne|].
  exact (acknowledgement_leaves_other_sections day1 alice 1 true day1Record day1Second
           (Finite 0) Hget Hack Hne).
Defined.

Lemma acknowledgement_order_is_irrelevant_day0 :
  parseInteger 0 ≠ parseInteger 1
  ∧ ∃ ab ba,
      (acknowledgeSection 1 true (loggedIn alice)
         (acknowledgeSection 0 true (loggedIn alice) day0).2).1 = json (ProgressBody ab)
      ∧ (acknowledgeSection 0 true (loggedIn alice)
           (acknowledgeSection 1 true (loggedIn alice) day0).2).1 = json (ProgressBody ba)
      ∧ p_completedSections ab = p_completedSections ba
      ∧ p_currentSection ab = p_currentSection ba
      ∧ ∀ sectionId,
          currentFlag sectionId (p_sections ab) = currentFlag sectionId (p_sections ba).
Proof.
  assert (parseInteger 0 ≠ parseInteger 1) as Hne by (vm_compute; discriminate).
  split; [exact Hne|].
  exact (acknowledgement_order_is_irrelevant day0 alice 0 true 1 true Hne).
Defined.

Lemma routes_reject_missing_user_day1 :
  sessionUser anonymous = None
  ∧ getProgress anonymous day1 = (mkResponse 401 (ErrorBody "Not authenticated"), day1)
  ∧ listUsers anonymous day1 = (mkResponse 401 (ErrorBody "Not authenticated"), day1).
Proof.
  assert (sessionUser anonymous = None) as Hs by reflexivity.
  pose proof (routes_reject_missing_user plainHash anonymous day1 Hs)
    as (_ & Hget & _ & _ & Hlist & _).
  split_and!; [exact Hs|exact Hget|exact Hlist].
Defined.

Lemma admin_routes_reject_other_roles_day1 :
  sessionUser (loggedIn alice) = Some alice
  ∧ i_role alice ≠ "admin"
  ∧ listAllProgress (loggedIn alice) day1
    = (mkResponse 403 (ErrorBody "Admin access required"), day1)
  ∧ listUsers (loggedIn alice) day1
    = (mkResponse 403 (ErrorBody "Admin access required"), day1).
Proof.
  assert (sessionUser (loggedIn alice) = Some alice) as Hs by reflexivity.
  assert (i_role alice ≠ "admin") as Hrole by discriminate.
  pose proof (admin_routes_reject_other_roles plainHash (loggedIn alice) day1 alice Hs Hrole)
    as (Hprogress & Husers & _).
  split_and!; [exact Hs|exact Hrole|exact Hprogress|exact Husers].
Defined.

Lemma login_establishes_session_day0 :
  find (hasEmail "staff@maytech.com") (usersFile day0) = Some (1%nat, staff)
  ∧ plainCompare "staff123" (u_password staff) = true
  ∧ login plainCompare "staff@maytech.com" "staff123" anonymous day0
    = (mkResponse 200 (LoginBody alice), loggedIn alice, day0).
Proof.
  assert (find (hasEmail "staff@maytech.com") (usersFile day0) = Some (1%nat, staff))
    as Hfound by reflexivity.
  assert (plainCompare "staff123" (u_password staff) = true) as Hmatch by reflexivity.
  split_and!; [exact Hfound|exact Hmatch|].
  exact (proj1 (login_establishes_session plainCompare day0 (mkSession None)
                  "staff@maytech.com" "staff123" 1%nat staff Hfound Hmatch)).
Defined.

Lemma createUser_appends_staff_day0 :
  isAdmin (loggedIn admin) = Next
  ∧ Forall (λ u, u_email u ≠ "new@maytech.com") (usersFile day0)
  ∧ (createUser plainHash "new@maytech.com" "secret" "New Staff" (loggedIn admin) day0).1
    = mkResponse 200 (CreatedBody 3 "new@maytech.com" "New Staff")
  ∧ usersFile
      (createUser plainHash "new@maytech.com" "secret" "New Staff" (loggedIn admin) day0).2
    = defaultUsers ++ [mkUser 3 "new@maytech.com" "plain:secret" "New Staff" "staff"]
  ∧ Forall (λ u, u_id u < 2 ^ 53) (usersFile day0)
  ∧ Forall (λ u, u_id u < nextUserId (usersFile day0)) (usersFile day0).
Proof.
  assert (isAdmin (loggedIn admin) = Next) as Hadmin by reflexivity.
  assert (Forall (λ u, u_email u ≠ "new@maytech.com") (usersFile day0)) as Hnew
    by (simpl; repeat constructor; discriminate).
  assert (Forall (λ u, u_id u < 2 ^ 53) (usersFile day0)) as Hsafe
    by (simpl; repeat constructor; simpl; lia).
  pose proof (createUser_appends_staff plainHash day0 (loggedIn admin)
                "new@maytech.com" "secret" "New Staff" Hadmin Hnew)
    as (Hanswer & Hfile & _ & _ & Hfresh).
  split_and!; [exact Hadmin|exact Hnew|exact Hanswer|exact Hfile|exact Hsafe|].
  exact (proj2 (Hfresh Hsafe)).
Defined.


Lemma created_user_can_log_in_day0 :
  isAdmin (loggedIn admin) = Next
  ∧ Forall (λ u, u_email u ≠ "new@maytech.com") (usersFile day0)
  ∧ plainCompare "secret" (plainHash "secret" 10 (entropy day0 (draws day0))) = true
  ∧ login plainCompare "new@maytech.com" "secret" anonymous
          (createUser plainHash "new@maytech.com" "secret" "New Staff" (loggedIn admin) day0).2
    = (mkResponse 200 (LoginBody (mkIdentity 3 "new@maytech.com" "New Staff" "staff")),
       loggedIn (mkIdentity 3 "new@maytech.com" "New Staff" "staff"),
       (createUser plainHash "new@maytech.com" "secret" "New Staff" (loggedIn admin) day0).2).
Proof.
  assert (isAdmin (loggedIn admin) = Next) as Hadmin by reflexivity.
  assert (Forall (λ u, u_email u ≠ "new@maytech.com") (usersFile day0)) as Hnew
    by (simpl; repeat constructor; discriminate).
  assert (plainCompare "secret" (plainHash "secret" 10 (entropy day0 (draws day0))) = true)
    as Hbcrypt by reflexivity.
  split_and!; [exact Hadmin|exact Hnew|exact Hbcrypt|].
  exact (created_user_can_log_in plainCompare plainHash day0 (loggedIn admin)
           (mkSession None) "new@maytech.com" "secret" "New Staff" Hadmin Hnew Hbcrypt).
Defined.

Lemma createUser_second_time_rejected_day0 :
  isAdmin (loggedIn admin) = Next
  ∧ createUser plainHash "new@maytech.com" "other" "Other Name" (loggedIn admin)
      (createUser plainHash "new@maytech.com" "secret" "New Staff" (loggedIn admin) day0).2
    = (mkResponse 400 (ErrorBody "User already exists"),
       (createUser plainHash "new@maytech.com" "secret" "New Staff" (loggedIn admin) day0).2).
Proof.
  assert (isAdmin (loggedIn admin) = Next) as Hadmin by reflexivity.
  split; [exact Hadmin|].
  exact (createUser_second_time_rejected plainHash day0 (loggedIn admin)
           "new@maytech.com" "secret" "New Staff" "other" "Other Name" Hadmin).
Defined.

Lemma listAllProgress_enriches_every_record_day1 :
  isAdmin (loggedIn admin) = Next
  ∧ ∃ l,
      listAllProgress (loggedIn admin) day1 = (mkResponse 200 (AdminProgressBody l), day1)
      ∧ length l = length (progressFile day1).
Proof.
  assert (isAdmin (loggedIn admin) = Next) as Hadmin by reflexivity.
  split; [exact Hadmin|].
  destruct (listAllProgress_enriches_every_record (loggedIn admin) day1 Hadmin)
    as (l & Hanswer & Hrecords).
  exists l. split; [exact Hanswer|].
  symmetry. exact (Forall2_length _ _ _ Hrecords).
Defined.

Lemma navigation_buttons_match_listeners_section1 :
  0 ≤ 1
  ∧ pageEvent anonymous PrevClick (showSection 1 tickedPage) day1
    = ((if pg_prevDisabled (showSection 1 tickedPage)
        then showSection 1 tickedPage
        else showSection (1 - 1) (showSection 1 tickedPage)), day1).
Proof.
  assert (0 ≤ 1) as Hpos by lia.
  split; [exact Hpos|].
  exact (proj2 (navigation_buttons_match_listeners anonymous 1 tickedPage day1) Hpos).
Defined.

Lemma pageEvent_keeps_section_in_range_ticked :
  0 ≤ pg_currentSection tickedPage ≤ 6
  ∧ 0 ≤ pg_currentSection (pageEvent (loggedIn alice) AdvanceTimeout tickedPage day1).1 ≤ 6.
Proof.
  assert (0 ≤ pg_currentSection tickedPage ≤ 6) as Hrange by (simpl; lia).
  split; [exact Hrange|].
  exact (pageEvent_keeps_section_in_range (loggedIn alice) AdvanceTimeout tickedPage day1
           Hrange).
Defined.

Lemma acknowledge_click_is_recorded_day0 :
  pg_checked tickedPage = true
  ∧ ∃ ref r,
      (pageEvent (loggedIn alice) AcknowledgeClick tickedPage day0).1
      = mkPage (pg_currentSection tickedPage) (Some r) (pg_prevDisabled tickedPage)
               (pg_nextDisabled tickedPage) true true
      ∧ list_find (ownedBy alice)
          (progressFile (pageEvent (loggedIn alice) AcknowledgeClick tickedPage day0).2)
        = Some (ref, r)
      ∧ isSectionAcknowledged (Some r) (pg_currentSection tickedPage) = true.
Proof.
  assert (pg_checked tickedPage = true) as Hchecked by reflexivity.
  split; [exact Hchecked|].
  exact (acknowledge_click_is_recorded alice tickedPage day0 Hchecked).
Defined.

Lemma init_lands_on_progress_day1 :
  reachable day1
  ∧ ∃ pg, (init (loggedIn alice) tickedPage day1).1 = Shown pg
          ∧ pg_userProgress pg = Some (workingRecord alice day1)
          ∧ pg_currentSection pg = p_currentSection (workingRecord alice day1)
          ∧ (reachable day1 →
             pg_currentSection pg
             = Z.min (p_completedSections (workingRecord alice day1)) 6
             ∧ 0 ≤ pg_currentSection pg ≤ 6).
Proof.
  split; [exact day1_reachable|].
  exact (init_lands_on_progress (loggedIn alice) tickedPage day1).
Defined.

Lemma acknowledgement_keeps_section_order_day1 :
  (getProgress (loggedIn alice) day1).1 = json (ProgressBody day1Record)
  ∧ (acknowledgeSection 1 true (loggedIn alice) day1).1 = json (ProgressBody day1Second)
  ∧ s_id <$> p_sections day1Second
    = (s_id <$> p_sections day1Record)
      ++ [IdNum 1].
Proof.
  assert ((getProgress (loggedIn alice) day1).1 = json (ProgressBody day1Record)) as Hget
    by (vm_compute; reflexivity).
  assert ((acknowledgeSection 1 true (loggedIn alice) day1).1
          = json (ProgressBody day1Second)) as Hack by (vm_compute; reflexivity).
  split_and!; [exact Hget|exact Hack|].
  exact (acknowledgement_keeps_section_order day1 alice 1 true day1Record day1Second
           Hget Hack).
Defined.

(** The page of the staff member on day 1 opens on section 1. *)
Example scenario_page_resumes :
  (init (loggedIn alice) tickedPage day1).1
  = Shown (mkPage 1 (Some day1Record) false true false true).
Proof. vm_compute. reflexivity. Qed.

(** The dashboard on day 1: one staff member, in progress. *)
Example scenario_dashboard :
  renderStats (identityOf <$> usersFile day1) (enrich (usersFile day1) <$> progressFile day1)
  = mkStats 1 0 1 0.
Proof. vm_compute. reflexivity. Qed.
